(** * Clean-Architecture user pipeline: entity, mapper, repository port and
      adapters, use cases and controllers.

    The JavaScript/TypeScript sources are embedded shallowly.  Asynchronous
    methods run to completion one at a time, so a method is a function from
    the adapter's state to an outcome (a returned value or a thrown error)
    and the next state.  [new Date()] reads a clock; every operation takes
    the current time as the argument [now].  Identifiers of the in-memory
    adapter are JavaScript numbers holding integers; they are modelled as
    integers, which is exact below 2^53. *)

From Stdlib Require Import ZArith NArith List String Ascii Bool Lia.
From Stdlib Require Import Permutation.
From Stdlib Require Import DecimalString DecimalPos.
Import ListNotations.
Local Open Scope string_scope.
Local Open Scope Z_scope.

(* ================================================================== *)
(** ** JavaScript values *)
(* ================================================================== *)

(** The values that flow through the pipeline.  [JNum] holds the
    integer-valued numbers (identifiers); [JDate] a Date object with its
    time value.  An absent object property reads as [JUndefined]. *)
Inductive jsval : Type :=
| JUndefined
| JNull
| JBool (b : bool)
| JNum (n : Z)
| JStr (s : string)
| JDate (t : Z).

(** ToBoolean: what [!v] and [v || w] test. *)
Definition truthy (v : jsval) : bool :=
  match v with
  | JUndefined | JNull => false
  | JBool b => b
  | JNum n => negb (n =? 0)
  | JStr s => negb (String.eqb s "")
  | JDate _ => true
  end.

(** [a || b] *)
Definition js_or (a b : jsval) : jsval := if truthy a then a else b.

(** [v === 'literal'] for a string literal. *)
Definition strict_eq_str (v : jsval) (lit : string) : bool :=
  match v with
  | JStr s => String.eqb s lit
  | _ => false
  end.

(** [v == null]: the nullish values, the ones [??] would replace. *)
Definition nullish (v : jsval) : bool :=
  match v with
  | JUndefined | JNull => true
  | _ => false
  end.

(** Decimal text of an integer: what ToString prints for a number whose
    magnitude is below 10^21.  From there on JavaScript prints exponent
    form (['1e+21']), which is not modelled; the theorems that read a
    number's text bound the number. *)
Definition decimal (n : Z) : string := NilEmpty.string_of_int (Z.to_int n).

(** ToString.  The text of a Date is implementation-defined and begins with
    a weekday name (or is [Invalid Date]); only that it begins with a
    letter matters below, and [date_text] stands for it. *)
Definition date_text (t : Z) : string := "Date " ++ decimal t.

Definition ToString (v : jsval) : string :=
  match v with
  | JUndefined => "undefined"
  | JNull => "null"
  | JBool true => "true"
  | JBool false => "false"
  | JNum n => decimal n
  | JStr s => s
  | JDate t => date_text t
  end.

(* ------------------------------------------------------------------ *)
(** *** parseInt(string) with no radix argument *)
(* ------------------------------------------------------------------ *)

(** StrWhiteSpaceChar among the code units below 256: TAB, LF, VT, FF, CR,
    SP and NBSP. *)
Definition is_white_space (c : ascii) : bool :=
  let n := nat_of_ascii c in
  (Nat.eqb n 9 || Nat.eqb n 10 || Nat.eqb n 11 || Nat.eqb n 12
   || Nat.eqb n 13 || Nat.eqb n 32 || Nat.eqb n 160)%bool.

Fixpoint trim_start (s : string) : string :=
  match s with
  | String c r => if is_white_space c then trim_start r else s
  | EmptyString => EmptyString
  end.

(** Value of a character as a digit of the given radix (10 or 16). *)
Definition digit_value (radix : Z) (c : ascii) : option Z :=
  let n := Z.of_nat (nat_of_ascii c) in
  if (48 <=? n) && (n <=? 57) then Some (n - 48)
  else if (radix =? 16) && (97 <=? n) && (n <=? 102) then Some (n - 87)
  else if (radix =? 16) && (65 <=? n) && (n <=? 70) then Some (n - 55)
  else None.

(** Reads the longest prefix of digits; [None] when there is none.  [acc]
    is the value read so far, [seen] whether a digit was read. *)
Fixpoint read_digits (radix : Z) (s : string) (acc : Z) (seen : bool)
  : option Z :=
  match s with
  | String c r =>
      match digit_value radix c with
      | Some d => read_digits radix r (acc * radix + d) true
      | None => if seen then Some acc else None
      end
  | EmptyString => if seen then Some acc else None
  end.

(** Removes a leading sign; the sign is -1 after ["-"], else 1. *)
Definition strip_sign (s : string) : Z * string :=
  match s with
  | String "-" r => (-1, r)
  | String "+" r => (1, r)
  | _ => (1, s)
  end.

(** Removes a leading [0x] or [0X] and selects radix 16, else radix 10. *)
Definition strip_prefix (s : string) : Z * string :=
  match s with
  | String "0" (String "x" r) => (16, r)
  | String "0" (String "X" r) => (16, r)
  | _ => (10, s)
  end.

(** [parseInt(s)]: [None] is NaN, [Some z] the integer read.  (JavaScript
    rounds a result beyond 2^53 to a double; such a result equals no
    identifier below 2^53 before or after rounding.) *)
Definition parseInt (s : string) : option Z :=
  let '(sign, s2) := strip_sign (trim_start s) in
  let '(radix, s3) := strip_prefix s2 in
  match read_digits radix s3 0 false with
  | Some m => Some (sign * m)
  | None => None
  end.

(** The integer a string's leading decimal digits denote; [None] when the
    string does not begin with a decimal digit. *)
Definition leading_decimal (s : string) : option Z := read_digits 10 s 0 false.

Definition starts_with_digit (s : string) : bool :=
  match s with
  | String c _ =>
      match digit_value 10 c with Some _ => true | None => false end
  | EmptyString => false
  end.

(** The integer a sequence of decimal digits denotes, read left to right
    after the value [acc]. *)
Fixpoint uint_value (u : Decimal.uint) (acc : Z) : Z :=
  match u with
  | Decimal.Nil => acc
  | Decimal.D0 r => uint_value r (acc * 10 + 0)
  | Decimal.D1 r => uint_value r (acc * 10 + 1)
  | Decimal.D2 r => uint_value r (acc * 10 + 2)
  | Decimal.D3 r => uint_value r (acc * 10 + 3)
  | Decimal.D4 r => uint_value r (acc * 10 + 4)
  | Decimal.D5 r => uint_value r (acc * 10 + 5)
  | Decimal.D6 r => uint_value r (acc * 10 + 6)
  | Decimal.D7 r => uint_value r (acc * 10 + 7)
  | Decimal.D8 r => uint_value r (acc * 10 + 8)
  | Decimal.D9 r => uint_value r (acc * 10 + 9)
  end.

(** [n === parseInt(id)] for a stored number [n]: NaN equals nothing. *)
Definition num_strict_eq (n : Z) (p : option Z) : bool :=
  match p with
  | Some m => n =? m
  | None => false
  end.

(* ================================================================== *)
(** ** Outcomes of methods: a state and exception monad *)
(* ================================================================== *)

(** A thrown [Error]; controllers read its [message]. *)
Record JsError : Type := Error { message : string }.

Inductive outcome (A : Type) : Type :=
| Returns (a : A)
| Throws (e : JsError).
Arguments Returns {A} a.
Arguments Throws {A} e.

(** A method over an adapter state [S]. *)
Definition M (S A : Type) : Type := S -> outcome A * S.

Definition ret {S A} (a : A) : M S A := fun s => (Returns a, s).
Definition throw {S A} (e : JsError) : M S A := fun s => (Throws e, s).
Definition bind {S A B} (m : M S A) (k : A -> M S B) : M S B :=
  fun s =>
    match m s with
    | (Returns a, s') => k a s'
    | (Throws e, s') => (Throws e, s')
    end.
(** [try { m } catch (error) { h error }] *)
Definition try_catch {S A} (m : M S A) (h : JsError -> M S A) : M S A :=
  fun s =>
    match m s with
    | (Returns a, s') => (Returns a, s')
    | (Throws e, s') => h e s'
    end.

Declare Scope js_scope.
Delimit Scope js_scope with js.
Notation "x <- m ;; k" := (bind m (fun x => k))
  (at level 61, m at next level, right associativity) : js_scope.

(* ================================================================== *)
(** ** Domain: entity and DTO *)
(* ================================================================== *)

(** user.entity.js.  (The TypeScript sources import a class of the same
    name and call its constructor with the same arguments, the last one
    left out.) *)
Module UserEntity.

Record t : Type := mk {
  id : jsval;
  name : jsval;
  email : jsval;
  role : jsval;
  createdAt : jsval
}.

(** [constructor(id, name, email, role, createdAt)]:
    [this.createdAt = createdAt || new Date()]. *)
Definition new (id name email role createdAt : jsval) (now : Z) : t :=
  {| id := id; name := name; email := email; role := role;
     createdAt := js_or createdAt (JDate now) |}.

(** [isAdmin() { return this.role === 'admin'; }] *)
Definition isAdmin (u : t) : bool := strict_eq_str (role u) "admin".

End UserEntity.

Module UserDTO.

Record t : Type := mk {
  id : jsval;
  name : jsval;
  email : jsval;
  role : jsval
}.

End UserDTO.

(** A raw record handed to [UserMapper.toEntity]; a property that is
    missing from the object reads as [JUndefined]. *)
Module RawUser.

Record t : Type := mk {
  id : jsval;
  name : jsval;
  email : jsval;
  role : jsval;
  createdAt : jsval
}.

End RawUser.

Module UserMapper.

Definition toDTO (userEntity : UserEntity.t) : UserDTO.t :=
  UserDTO.mk (UserEntity.id userEntity) (UserEntity.name userEntity)
             (UserEntity.email userEntity) (UserEntity.role userEntity).

(** user.mapper.js: passes [data.createdAt] along. *)
Definition toEntity (data : RawUser.t) (now : Z) : UserEntity.t :=
  UserEntity.new (RawUser.id data) (RawUser.name data) (RawUser.email data)
                 (RawUser.role data) (RawUser.createdAt data) now.

(** user.mapper.ts: calls the constructor with four arguments, so its
    [createdAt] parameter is [undefined]. *)
Definition toEntity_ts (data : RawUser.t) (now : Z) : UserEntity.t :=
  UserEntity.new (RawUser.id data) (RawUser.name data) (RawUser.email data)
                 (RawUser.role data) JUndefined now.

End UserMapper.

(* ================================================================== *)
(** ** The repository port *)
(* ================================================================== *)

(** [IUserRepository]: the three operations a use case may call, over an
    adapter state [S]. *)
Class IUserRepository (S : Type) : Type := {
  create : UserEntity.t -> Z -> M S UserEntity.t;
  findAll : Z -> M S (list UserEntity.t);
  findById : jsval -> Z -> M S (option UserEntity.t)
}.

(** user.repository.interface.js: the base class, every method of which
    throws. *)
Module UserRepositoryInterface.

Definition not_implemented : JsError := Error "Method not implemented".

#[export] Instance port : IUserRepository unit := {
  create := fun _ _ => throw not_implemented;
  findAll := fun _ => throw not_implemented;
  findById := fun _ _ => throw not_implemented
}.

End UserRepositoryInterface.

(* ================================================================== *)
(** ** Use cases *)
(* ================================================================== *)

Module CreateUserUseCase.

(** The request body, an object: a missing property is [JUndefined]. *)
Record CreateUserRequest : Type := mkRequest {
  name : jsval;
  email : jsval;
  role : jsval
}.

Definition required_message : string := "Name and email are required".

(** The transient entity of line 22:
    [new UserEntity(null, name, email, role || 'user')]. *)
Definition newUserEntity (data : CreateUserRequest) (now : Z) : UserEntity.t :=
  UserEntity.new JNull (name data) (email data)
                 (js_or (role data) (JStr "user")) JUndefined now.

Definition execute {S} `{IUserRepository S}
  (data : CreateUserRequest) (now : Z) : M S UserDTO.t :=
  if (negb (truthy (name data)) || negb (truthy (email data)))%bool then
    throw (Error required_message)
  else
    (createdUser <- create (newUserEntity data now) now ;;
     ret (UserMapper.toDTO createdUser))%js.

End CreateUserUseCase.

Module GetAllUsersUseCase.

Definition execute {S} `{IUserRepository S} (now : Z) : M S (list UserDTO.t) :=
  (users <- findAll now ;;
   ret (map UserMapper.toDTO users))%js.

End GetAllUsersUseCase.

Module GetUserByIdUseCase.

Definition not_found_message : string := "User not found".

Definition execute {S} `{IUserRepository S} (id : jsval) (now : Z)
  : M S UserDTO.t :=
  (user <- findById id now ;;
   match user with
   | None => throw (Error not_found_message)
   | Some u => ret (UserMapper.toDTO u)
   end)%js.

End GetUserByIdUseCase.

(* ================================================================== *)
(** ** Controllers and the response envelope *)
(* ================================================================== *)

Inductive payload : Type :=
| PNull
| PUser (dto : UserDTO.t)
| PUsers (dtos : list UserDTO.t).

(** What [res.status(statusCode).json({success, message, data})] sends. *)
Record Response : Type := mkResponse {
  statusCode : Z;
  success : bool;
  resMessage : string;
  data : payload
}.

(** response.util: [data] defaults to [null]. *)
Definition sendResponse (statusCode : Z) (success : bool) (message : string)
  (data : option payload) : Response :=
  mkResponse statusCode success message
             (match data with Some d => d | None => PNull end).

Module CreateUserController.

Definition handle {S} `{IUserRepository S}
  (body : CreateUserUseCase.CreateUserRequest) (now : Z) (s : S)
  : Response * S :=
  match CreateUserUseCase.execute body now s with
  | (Returns userDTO, s') =>
      (sendResponse 201 true "User created successfully"
                    (Some (PUser userDTO)), s')
  | (Throws error, s') =>
      (sendResponse 400 false (message error) None, s')
  end.

End CreateUserController.

Module GetUsersController.

Definition getAll {S} `{IUserRepository S} (now : Z) (s : S) : Response * S :=
  match GetAllUsersUseCase.execute now s with
  | (Returns usersDTO, s') =>
      (sendResponse 200 true "Users retrieved successfully"
                    (Some (PUsers usersDTO)), s')
  | (Throws error, s') =>
      (sendResponse 500 false (message error) None, s')
  end.

(** [params_id] is [req.params.id], a string. *)
Definition getById {S} `{IUserRepository S} (params_id : string) (now : Z)
  (s : S) : Response * S :=
  match GetUserByIdUseCase.execute (JStr params_id) now s with
  | (Returns userDTO, s') =>
      (sendResponse 200 true "User retrieved successfully"
                    (Some (PUser userDTO)), s')
  | (Throws error, s') =>
      if String.eqb (message error) "User not found" then
        (sendResponse 404 false (message error) None, s')
      else
        (sendResponse 500 false (message error) None, s')
  end.

End GetUsersController.

(* ================================================================== *)
(** ** The in-memory adapter *)
(* ================================================================== *)

Module InMemoryUserRepository.

(** A record of [this.users]: the entity's properties with [id] replaced
    by the number drawn from [currentId]. *)
Record StoredUser : Type := mkStored {
  id : Z;
  name : jsval;
  email : jsval;
  role : jsval;
  createdAt : jsval
}.

Record t : Type := mk {
  users : list StoredUser;
  currentId : Z
}.

(** [constructor()] *)
Definition new : t := {| users := []; currentId := 1 |}.

(** [new UserEntity(u.id, u.name, u.email, u.role, u.createdAt)] *)
Definition rehydrate (u : StoredUser) (now : Z) : UserEntity.t :=
  UserEntity.new (JNum (id u)) (name u) (email u) (role u) (createdAt u) now.

(** [currentId++] adds one, exactly so while the counter is below 2^53.
    (A double that has reached 2^53 stays there; that is not modelled, and
    a theorem that states the next counter value or reads an id back
    either bounds the counter or starts from the new repository, whose
    counter cannot get that far.) *)
Definition repo_create (userEntity : UserEntity.t) (now : Z)
  : M t UserEntity.t :=
  fun this =>
    let newUser :=
      {| id := currentId this;
         name := UserEntity.name userEntity;
         email := UserEntity.email userEntity;
         role := UserEntity.role userEntity;
         createdAt := UserEntity.createdAt userEntity |} in
    (Returns (rehydrate newUser now),
     {| users := users this ++ [newUser];
        currentId := currentId this + 1 |}).

Definition repo_findAll (now : Z) : M t (list UserEntity.t) :=
  fun this => (Returns (map (fun u => rehydrate u now) (users this)), this).

(** [this.users.find(u => u.id === parseInt(id))] *)
Definition repo_findById (id_arg : jsval) (now : Z)
  : M t (option UserEntity.t) :=
  fun this =>
    match find (fun u => num_strict_eq (id u) (parseInt (ToString id_arg)))
               (users this) with
    | None => (Returns None, this)
    | Some user => (Returns (Some (rehydrate user now)), this)
    end.

#[export] Instance port : IUserRepository t := {
  create := repo_create;
  findAll := repo_findAll;
  findById := repo_findById
}.

(** What holds of every state reached from [new] by calls of the three
    methods: the stored ids are positive, pairwise distinct and below
    [currentId]. *)
Definition invariant (this : t) : Prop :=
  NoDup (map id (users this)) /\
  Forall (fun u => 0 < id u < currentId this) (users this) /\
  0 < currentId this.

(** The DTO a stored record is read back as. *)
Definition stored_dto (u : StoredUser) : UserDTO.t :=
  UserDTO.mk (JNum (id u)) (name u) (email u) (role u).

End InMemoryUserRepository.

(* ================================================================== *)
(** ** The persistent-store adapter *)
(* ================================================================== *)

(** [IUserDocument]: a document of the store.  [_id] is kept as the text
    [_id.toString()] yields, the only way the adapter reads it. *)
Record UserDocument : Type := mkDocument {
  doc_id : string;
  doc_name : jsval;
  doc_email : jsval;
  doc_role : jsval;
  doc_createdAt : jsval
}.

(** The object literal given to [new UserModel({...})]. *)
Record DocumentFields : Type := mkFields {
  f_name : jsval;
  f_email : jsval;
  f_role : jsval
}.

(** The part of the Mongoose model the adapter calls, over a store state
    [D]: [new UserModel(fields).save()], [UserModel.find()] and
    [UserModel.findById(id)].  Each may throw. *)
Class UserModel (D : Type) : Type := {
  model_save : DocumentFields -> Z -> M D UserDocument;
  model_find : M D (list UserDocument);
  model_findById : jsval -> M D (option UserDocument)
}.

Module MongoUserRepository.

(** [_mapToEntity]: four constructor arguments. *)
Definition _mapToEntity (mongoUser : UserDocument) (now : Z) : UserEntity.t :=
  UserEntity.new (JStr (doc_id mongoUser)) (doc_name mongoUser)
                 (doc_email mongoUser) (doc_role mongoUser) JUndefined now.

Definition repo_create {D} `{UserModel D} (userEntity : UserEntity.t)
  (now : Z) : M D UserEntity.t :=
  (savedUser <- model_save
                  {| f_name := UserEntity.name userEntity;
                     f_email := UserEntity.email userEntity;
                     f_role := UserEntity.role userEntity |} now ;;
   ret (_mapToEntity savedUser now))%js.

Definition repo_findAll {D} `{UserModel D} (now : Z)
  : M D (list UserEntity.t) :=
  (users <- model_find ;;
   ret (map (fun user => _mapToEntity user now) users))%js.

Definition repo_findById {D} `{UserModel D} (id : jsval) (now : Z)
  : M D (option UserEntity.t) :=
  try_catch
    (user <- model_findById id ;;
     match user with
     | None => ret None
     | Some u => ret (Some (_mapToEntity u now))
     end)%js
    (fun _ => ret None).

#[export] Instance port {D} `{UserModel D} : IUserRepository D := {
  create := repo_create;
  findAll := repo_findAll;
  findById := repo_findById
}.

End MongoUserRepository.

(* ================================================================== *)
(** ** A reference model of the document store *)
(* ================================================================== *)

(** The store itself (Mongoose over MongoDB) is an external collaborator.
    [UserCollection] models what it does with [UserSchema] of
    user.model.ts: [name] and [email] are required strings, [email] has a
    unique index, [role] defaults to ['user'] and [createdAt] to the
    current time; documents are keyed by a store-assigned ObjectId, printed
    as 24 hexadecimal digits. *)
Module UserCollection.

Record t : Type := mk {
  documents : list UserDocument;
  inserted : N
}.

Definition empty : t := {| documents := []; inserted := 0 |}.

Definition hex_char (d : N) : ascii :=
  if (d <? 10)%N then ascii_of_N (48 + d) else ascii_of_N (87 + d).

(** The [k] low hexadecimal digits of [n], most significant first, put in
    front of [acc]. *)
Fixpoint hex_digits (k : nat) (n : N) (acc : string) : string :=
  match k with
  | O => acc
  | S k' => hex_digits k' (n / 16)%N (String (hex_char (n mod 16)%N) acc)
  end.

(** The text of the ObjectId of the [n]-th inserted document. *)
Definition objectId (n : N) : string := hex_digits 24 n "".

Definition is_hex (c : ascii) : bool :=
  match digit_value 16 c with Some _ => true | None => false end.

Fixpoint all_hex (s : string) : bool :=
  match s with
  | String c r => is_hex c && all_hex r
  | EmptyString => true
  end.

Definition isValidObjectId (s : string) : bool :=
  (Nat.eqb (String.length s) 24 && all_hex s)%bool.

(** An ObjectId is printed in lower case; its text is read in either. *)
Definition lower_hex (c : ascii) : ascii :=
  let n := nat_of_ascii c in
  if (Nat.leb 65 n && Nat.leb n 70)%bool then ascii_of_nat (n + 32) else c.

Fixpoint lower_hex_string (s : string) : string :=
  match s with
  | String c r => String (lower_hex c) (lower_hex_string r)
  | EmptyString => EmptyString
  end.

(** Casting to the schema type String: a value other than [undefined] and
    [null] becomes its text. *)
Definition cast_string (v : jsval) : jsval :=
  match v with
  | JUndefined => JUndefined
  | JNull => JNull
  | _ => JStr (ToString v)
  end.

(** The [required: true] validator of a String path. *)
Definition required_ok (v : jsval) : bool :=
  match v with
  | JStr s => negb (String.eqb s "")
  | _ => false
  end.

Definition same_string (a b : jsval) : bool :=
  match a, b with
  | JStr x, JStr y => String.eqb x y
  | _, _ => false
  end.

(** What the schema does not fix is left open, as a parameter of the
    model: the order in which [find()] lists the documents (the adapter
    asks for none, and the store promises none) and the errors the store
    throws. *)
Record behaviour : Type := mkBehaviour {
  listing : list UserDocument -> list UserDocument;
  on_validation : DocumentFields -> JsError;
  on_duplicate : jsval -> JsError;
  on_cast : jsval -> JsError
}.

Definition save_in (b : behaviour) (fields : DocumentFields) (now : Z)
  : M t UserDocument :=
  fun c =>
    let name := cast_string (f_name fields) in
    let email := cast_string (f_email fields) in
    let role :=
      match f_role fields with
      | JUndefined => JStr "user"
      | v => cast_string v
      end in
    if (negb (required_ok name) || negb (required_ok email))%bool then
      (Throws (on_validation b fields), c)
    else if existsb (fun d => same_string (doc_email d) email) (documents c)
    then (Throws (on_duplicate b email), c)
    else
      let doc :=
        {| doc_id := objectId (inserted c);
           doc_name := name; doc_email := email; doc_role := role;
           doc_createdAt := JDate now |} in
      (Returns doc,
       {| documents := documents c ++ [doc];
          inserted := (inserted c + 1)%N |}).

Definition find_all_in (b : behaviour) : M t (list UserDocument) :=
  fun c => (Returns (listing b (documents c)), c).

(** [findById]: an id that is not the text of an ObjectId fails to cast. *)
Definition find_by_id_in (b : behaviour) (id : jsval)
  : M t (option UserDocument) :=
  fun c =>
    match id with
    | JUndefined | JNull => (Returns None, c)
    | JStr s =>
        if isValidObjectId s then
          (Returns (find (fun d => String.eqb (doc_id d) (lower_hex_string s))
                         (documents c)), c)
        else (Throws (on_cast b id), c)
    | _ => (Throws (on_cast b id), c)
    end.

Definition model_in (b : behaviour) : UserModel t := {|
  model_save := save_in b;
  model_find := find_all_in b;
  model_findById := find_by_id_in b
|}.

(** One behaviour, used for concrete runs: documents listed in insertion
    order, and error texts in the form Mongoose and the server give them
    for the database [clean-arch-db] of the default configuration.  No
    theorem below depends on these texts. *)
Definition quoted (s : string) : string :=
  String "034" (s ++ String "034" EmptyString).

Definition required_text (path : string) : string :=
  path ++ ": Path `" ++ path ++ "` is required.".

Definition validation_error (fields : DocumentFields) : JsError :=
  let name_ok := required_ok (cast_string (f_name fields)) in
  let email_ok := required_ok (cast_string (f_email fields)) in
  Error ("User validation failed: " ++
         (if name_ok then required_text "email"
          else if email_ok then required_text "name"
          else required_text "name" ++ ", " ++ required_text "email")).

Definition duplicate_key_error (email : jsval) : JsError :=
  Error ("E11000 duplicate key error collection: clean-arch-db.users "
         ++ "index: email_1 dup key: { email: " ++ quoted (ToString email)
         ++ " }").

Definition type_name (v : jsval) : string :=
  match v with
  | JUndefined => "undefined"
  | JNull => "null"
  | JBool _ => "boolean"
  | JNum _ => "number"
  | JStr _ => "string"
  | JDate _ => "Date"
  end.

Definition cast_error (id : jsval) : JsError :=
  Error ("Cast to ObjectId failed for value " ++ quoted (ToString id)
         ++ " (type " ++ type_name id ++ ") at path " ++ quoted "_id"
         ++ " for model " ++ quoted "User").

Definition reference : behaviour := {|
  listing := fun l => l;
  on_validation := validation_error;
  on_duplicate := duplicate_key_error;
  on_cast := cast_error
|}.

(** The same store listing in the opposite order. *)
Definition newest_first : behaviour := {|
  listing := @rev UserDocument;
  on_validation := validation_error;
  on_duplicate := duplicate_key_error;
  on_cast := cast_error
|}.

#[export] Instance model : UserModel t := model_in reference.

(** What holds of every state reached from [empty]: the documents carry
    the ObjectIds handed out so far, each once, and fewer than 16^24 were
    handed out. *)
Definition invariant (c : t) : Prop :=
  NoDup (map doc_id (documents c)) /\
  Forall (fun d => exists k, (k < inserted c)%N /\ doc_id d = objectId k)
         (documents c) /\
  (inserted c <= 16 ^ 24)%N.

(** The DTO a document is read back as. *)
Definition doc_dto (d : UserDocument) : UserDTO.t :=
  UserDTO.mk (JStr (doc_id d)) (doc_name d) (doc_email d) (doc_role d).

End UserCollection.

(** A store whose every call fails, as when the connection is down. *)
Module UnreachableStore.

Definition connection_error : JsError := Error "connect ECONNREFUSED".

Definition model : UserModel unit := {|
  model_save := fun _ _ => throw connection_error;
  model_find := throw connection_error;
  model_findById := fun _ => throw connection_error
|}.

End UnreachableStore.

(** ** Runs of several creations *)

(** [CreateUser.execute] on each input in turn, each at its own time;
    the outcomes in order, and the state they leave. *)
Fixpoint create_users {S} `{IUserRepository S}
  (inputs : list (CreateUserUseCase.CreateUserRequest * Z)) (s : S)
  : list (outcome UserDTO.t) * S :=
  match inputs with
  | [] => ([], s)
  | (data, now) :: rest =>
      let '(o, s1) := CreateUserUseCase.execute data now s in
      let '(os, s2) := create_users rest s1 in
      (o :: os, s2)
  end.

(** The values of the outcomes that returned, in order. *)
Fixpoint returned {A} (os : list (outcome A)) : list A :=
  match os with
  | [] => []
  | Returns a :: r => a :: returned r
  | Throws _ :: r => returned r
  end.

(** An input that passes the use case's validation. *)
Definition valid_request (data : CreateUserUseCase.CreateUserRequest) : bool :=
  truthy (CreateUserUseCase.name data) && truthy (CreateUserUseCase.email data).

(** "Empty or absent": the empty string, [null], or a missing property. *)
Definition empty_or_absent (v : jsval) : bool :=
  match v with
  | JUndefined | JNull => true
  | JStr s => String.eqb s ""
  | _ => false
  end.

(** The repository after one creation: user 1 is stored. *)
Definition one_user : InMemoryUserRepository.t :=
  InMemoryUserRepository.mk
    [InMemoryUserRepository.mkStored 1 (JStr "John") (JStr "john@x.com")
                                     (JStr "user") (JDate 5)] 2.

(** ** Runs of the three use cases, and what a caller observes *)

(** One invocation.  [GetCreated k] is [GetUserById.execute] on the id that
    the [k]-th successful creation of the run returned (on [undefined] when
    there was none). *)
Inductive command : Type :=
| CreateUser (data : CreateUserUseCase.CreateUserRequest)
| GetAllUsers
| GetCreated (k : nat).

Inductive observation : Type :=
| Created (dto : UserDTO.t)
| Listed (dtos : list UserDTO.t)
| Got (dto : UserDTO.t)
| Failed (message : string).

(** Runs the commands in turn, each at its own time, against one adapter;
    [ids] are the ids returned by the creations so far. *)
Fixpoint run {S} `{IUserRepository S} (cmds : list (command * Z))
  (ids : list jsval) (s : S) : list observation :=
  match cmds with
  | [] => []
  | (CreateUser data, now) :: rest =>
      match CreateUserUseCase.execute data now s with
      | (Returns dto, s') =>
          Created dto :: run rest (ids ++ [UserDTO.id dto]) s'
      | (Throws e, s') => Failed (message e) :: run rest ids s'
      end
  | (GetAllUsers, now) :: rest =>
      match GetAllUsersUseCase.execute now s with
      | (Returns dtos, s') => Listed dtos :: run rest ids s'
      | (Throws e, s') => Failed (message e) :: run rest ids s'
      end
  | (GetCreated k, now) :: rest =>
      let id := match nth_error ids k with Some i => i | None => JUndefined end in
      match GetUserByIdUseCase.execute id now s with
      | (Returns dto, s') => Got dto :: run rest ids s'
      | (Throws e, s') => Failed (message e) :: run rest ids s'
      end
  end.

(** Two DTOs agree on name, email and role. *)
Definition same_user (a b : UserDTO.t) : Prop :=
  UserDTO.name a = UserDTO.name b /\
  UserDTO.email a = UserDTO.email b /\
  UserDTO.role a = UserDTO.role b.

(** Two observations are alike: the same kind of outcome, DTOs that agree
    on name, email and role, failures with the same message; two listings
    are alike when they hold the same users, in whatever order. *)
Inductive alike : observation -> observation -> Prop :=
| alike_created (a b : UserDTO.t) :
    same_user a b -> alike (Created a) (Created b)
| alike_listed (l l' reordered : list UserDTO.t) :
    Permutation l' reordered -> Forall2 same_user l reordered ->
    alike (Listed l) (Listed l')
| alike_got (a b : UserDTO.t) :
    same_user a b -> alike (Got a) (Got b)
| alike_failed (m : string) :
    alike (Failed m) (Failed m).

(** A field as the request type declares it: a string, or absent. *)
Definition string_or_absent (v : jsval) : bool :=
  match v with
  | JStr _ | JUndefined | JNull => true
  | _ => false
  end.

Definition typed_command (c : command) : bool :=
  match c with
  | CreateUser data =>
      string_or_absent (CreateUserUseCase.name data)
      && string_or_absent (CreateUserUseCase.email data)
      && string_or_absent (CreateUserUseCase.role data)
  | _ => true
  end.

(** The emails of the creations that pass validation. *)
Fixpoint created_emails (cmds : list (command * Z)) : list jsval :=
  match cmds with
  | [] => []
  | (CreateUser data, _) :: rest =>
      if valid_request data
      then CreateUserUseCase.email data :: created_emails rest
      else created_emails rest
  | _ :: rest => created_emails rest
  end.

(** ** The two adapters side by side *)

Module Substitution.

Import InMemoryUserRepository.

(** The persistent adapter over the reference store. *)
Definition mongo : IUserRepository UserCollection.t :=
  @MongoUserRepository.port _ UserCollection.model.

(** The persistent adapter over the store with a given behaviour. *)
Definition mongo_in (b : UserCollection.behaviour)
  : IUserRepository UserCollection.t :=
  @MongoUserRepository.port _ (UserCollection.model_in b).

(** A stored record and a document that hold the same user. *)
Definition rec_agree (u : StoredUser) (x : UserDocument) : Prop :=
  name u = doc_name x /\ email u = doc_email x /\ role u = doc_role x.

(** The simulation relation: both adapters hold the same users in the
    same order, and the ids handed out so far are theirs. *)
Definition sim (ids_m ids_d : list jsval) (m : t) (c : UserCollection.t)
  : Prop :=
  invariant m /\
  UserCollection.invariant c /\
  Forall2 rec_agree (users m) (UserCollection.documents c) /\
  ids_m = map (fun u => JNum (id u)) (users m) /\
  ids_d = map (fun x => JStr (doc_id x)) (UserCollection.documents c).

End Substitution.

(** Sample requests and runs. *)
Definition john : CreateUserUseCase.CreateUserRequest :=
  CreateUserUseCase.mkRequest (JStr "John") (JStr "john@x.com") JUndefined.
Definition jane : CreateUserUseCase.CreateUserRequest :=
  CreateUserUseCase.mkRequest (JStr "Jane") (JStr "jane@x.com") (JStr "admin").
Definition nameless : CreateUserUseCase.CreateUserRequest :=
  CreateUserUseCase.mkRequest JUndefined (JStr "x@x.com") JUndefined.

Definition sample_run : list (command * Z) :=
  [(CreateUser john, 1); (CreateUser jane, 2); (GetAllUsers, 3);
   (GetCreated 0, 4); (GetCreated 1, 5); (CreateUser nameless, 6);
   (GetCreated 7, 7)].

Definition repeated_email_run : list (command * Z) :=
  [(CreateUser john, 1); (CreateUser john, 2)].

(** A DTO handed to [UserMapper.toEntity] as its raw record: it has no
    [createdAt] property. *)
Definition dto_as_raw (d : UserDTO.t) : RawUser.t :=
  RawUser.mk (UserDTO.id d) (UserDTO.name d) (UserDTO.email d)
             (UserDTO.role d) JUndefined.

(** The object literal [CreateUser.execute] makes the persistent adapter
    hand to [new UserModel]. *)
Definition fields_of_request (data : CreateUserUseCase.CreateUserRequest)
  : DocumentFields :=
  {| f_name := CreateUserUseCase.name data;
     f_email := CreateUserUseCase.email data;
     f_role := js_or (CreateUserUseCase.role data) (JStr "user") |}.

(** The DTOs that a run of creations is to leave listed, read off the
    inputs: one for each input that passes validation, in order, with the
    input's name and email, its role or ["user"], and the ids from [next]
    on. *)
Fixpoint listing_of (inputs : list (CreateUserUseCase.CreateUserRequest * Z))
  (next : Z) : list UserDTO.t :=
  match inputs with
  | [] => []
  | (data, _) :: rest =>
      if valid_request data then
        UserDTO.mk (JNum next) (CreateUserUseCase.name data)
          (CreateUserUseCase.email data)
          (if truthy (CreateUserUseCase.role data)
           then CreateUserUseCase.role data else JStr "user")
        :: listing_of rest (next + 1)
      else listing_of rest next
  end.

(** An adapter whose every method throws the given error: a repository
    failure as the use cases see it. *)
Module ThrowingRepository.

Definition port (e : JsError) : IUserRepository unit := {|
  create := fun _ _ => throw e;
  findAll := fun _ => throw e;
  findById := fun _ _ => throw e
|}.

End ThrowingRepository.

(* ================================================================== *)
(** * Properties *)
(* ================================================================== *)

(** ** Truthiness *)

Lemma empty_or_absent_falsy v : empty_or_absent v = true -> truthy v = false.
Proof.
  destruct v; simpl; try discriminate; auto.
  intros ->. reflexivity.
Qed.

Lemma js_or_truthy a b : truthy a = true -> js_or a b = a.
Proof. unfold js_or. intros ->. reflexivity. Qed.

Lemma js_or_falsy a b : truthy a = false -> js_or a b = b.
Proof. unfold js_or. intros ->. reflexivity. Qed.

Lemma nullish_falsy v : nullish v = true -> truthy v = false.
Proof. destruct v; simpl; congruence. Qed.

(** ** The mapper *)

(** C8, as the code has it: [toEntity] is total; it copies [id], [name],
    [email] and [role] unchanged, so a missing one stays [undefined]; but
    [createdAt] is kept only when it is truthy, and is otherwise replaced
    by the current time (always so in the TypeScript mapper, which does not
    pass it on). *)
Theorem toEntity_fields (data : RawUser.t) (now : Z) :
  let e := UserMapper.toEntity data now in
  let e' := UserMapper.toEntity_ts data now in
  (UserEntity.id e = RawUser.id data /\
   UserEntity.name e = RawUser.name data /\
   UserEntity.email e = RawUser.email data /\
   UserEntity.role e = RawUser.role data /\
   UserEntity.createdAt e =
     (if truthy (RawUser.createdAt data) then RawUser.createdAt data
      else JDate now)) /\
  (UserEntity.id e' = RawUser.id data /\
   UserEntity.name e' = RawUser.name data /\
   UserEntity.email e' = RawUser.email data /\
   UserEntity.role e' = RawUser.role data /\
   UserEntity.createdAt e' = JDate now).
Proof. repeat split. Qed.

(** C8 as stated fails: on the empty record [{}] the entity's [createdAt]
    is not left unset, it is the current time. *)
Lemma toEntity_createdAt_defaulted :
  let data := RawUser.mk JUndefined JUndefined JUndefined JUndefined
                         JUndefined in
  RawUser.createdAt data = JUndefined /\
  UserEntity.createdAt (UserMapper.toEntity data 1700000000000)
    = JDate 1700000000000 /\
  UserEntity.createdAt (UserMapper.toEntity_ts data 1700000000000)
    = JDate 1700000000000 /\
  UserEntity.createdAt (UserMapper.toEntity data 1700000000000)
    <> JUndefined.
Proof. repeat split. discriminate. Qed.

(** ** Use cases over any adapter of the port *)

Section AnyPort.

Context {S : Type} {repo : IUserRepository S}.

Lemma execute_create_invalid (data : CreateUserUseCase.CreateUserRequest)
  (now : Z) (s : S) :
  truthy (CreateUserUseCase.name data) = false \/
  truthy (CreateUserUseCase.email data) = false ->
  CreateUserUseCase.execute data now s =
    (Throws (Error "Name and email are required"), s).
Proof.
  unfold CreateUserUseCase.execute.
  intros [-> | ->]; simpl; [| rewrite orb_true_r]; reflexivity.
Qed.

Lemma execute_create_valid (data : CreateUserUseCase.CreateUserRequest)
  (now : Z) (s : S) :
  truthy (CreateUserUseCase.name data) = true ->
  truthy (CreateUserUseCase.email data) = true ->
  CreateUserUseCase.execute data now s =
    match create (CreateUserUseCase.newUserEntity data now) now s with
    | (Returns createdUser, s') => (Returns (UserMapper.toDTO createdUser), s')
    | (Throws e, s') => (Throws e, s')
    end.
Proof.
  unfold CreateUserUseCase.execute. intros -> ->. simpl.
  unfold bind, ret.
  destruct (create _ now s) as [[createdUser | e] s']; reflexivity.
Qed.

(** C2: when [name] or [email] is empty or absent, [execute] throws the
    validation error and leaves the adapter's state as it was: the port is
    not called, nothing is persisted. *)
Theorem create_user_rejects_missing_fields
  (data : CreateUserUseCase.CreateUserRequest) (now : Z) (s : S) :
  empty_or_absent (CreateUserUseCase.name data) = true \/
  empty_or_absent (CreateUserUseCase.email data) = true ->
  CreateUserUseCase.execute data now s =
    (Throws (Error "Name and email are required"), s).
Proof.
  intros H. apply execute_create_invalid.
  destruct H as [H | H]; [left | right]; now apply empty_or_absent_falsy.
Qed.

(** C6, as the code has it: for a valid input the transient entity has a
    null id, and its role is [data.role] when that is truthy and ["user"]
    otherwise, the empty string included ([role || 'user']); [execute]
    hands it to the port's [create] and maps what comes back to a DTO. *)
Theorem create_user_builds_entity
  (data : CreateUserUseCase.CreateUserRequest) (now : Z) (s : S) :
  truthy (CreateUserUseCase.name data) = true ->
  truthy (CreateUserUseCase.email data) = true ->
  let entity :=
    UserEntity.mk JNull (CreateUserUseCase.name data)
      (CreateUserUseCase.email data)
      (if truthy (CreateUserUseCase.role data)
       then CreateUserUseCase.role data else JStr "user")
      (JDate now) in
  CreateUserUseCase.execute data now s =
    match create entity now s with
    | (Returns createdUser, s') => (Returns (UserMapper.toDTO createdUser), s')
    | (Throws e, s') => (Throws e, s')
    end.
Proof.
  intros Hn He entity.
  rewrite (execute_create_valid data now s Hn He). reflexivity.
Qed.

Lemma execute_get_absent (id : jsval) (now : Z) (s s' : S) :
  findById id now s = (Returns None, s') ->
  GetUserByIdUseCase.execute id now s =
    (Throws (Error "User not found"), s').
Proof.
  intros H. unfold GetUserByIdUseCase.execute, bind. rewrite H. reflexivity.
Qed.

Lemma execute_get_present (id : jsval) (now : Z) (s s' : S) (u : UserEntity.t) :
  findById id now s = (Returns (Some u), s') ->
  GetUserByIdUseCase.execute id now s = (Returns (UserMapper.toDTO u), s').
Proof.
  intros H. unfold GetUserByIdUseCase.execute, bind. rewrite H. reflexivity.
Qed.

Lemma execute_get_throws (id : jsval) (now : Z) (s s' : S) (e : JsError) :
  findById id now s = (Throws e, s') ->
  GetUserByIdUseCase.execute id now s = (Throws e, s').
Proof.
  intros H. unfold GetUserByIdUseCase.execute, bind. rewrite H. reflexivity.
Qed.

Lemma getById_on_throw (params_id : string) (now : Z) (s s' : S)
  (e : JsError) :
  GetUserByIdUseCase.execute (JStr params_id) now s = (Throws e, s') ->
  GetUsersController.getById params_id now s =
    (mkResponse
       (if String.eqb (message e) "User not found" then 404 else 500)
       false (message e) PNull, s').
Proof.
  intros H. unfold GetUsersController.getById. rewrite H.
  destruct (String.eqb (message e) "User not found"); reflexivity.
Qed.

(** C9: when the use case throws, [getById] picks the status from the
    error's message alone: 404 exactly when the message is
    ['User not found'], whoever threw it, and 500 for every other
    message. *)
Theorem getById_status_by_message (params_id : string) (now : Z) (s s' : S)
  (e : JsError) :
  GetUserByIdUseCase.execute (JStr params_id) now s = (Throws e, s') ->
  let r := fst (GetUsersController.getById params_id now s) in
  (statusCode r = 404 <-> message e = "User not found") /\
  (statusCode r = 500 <-> message e <> "User not found") /\
  success r = false /\ resMessage r = message e /\ data r = PNull.
Proof.
  intros H r. subst r. rewrite (getById_on_throw _ _ _ _ _ H). simpl.
  destruct (String.eqb_spec (message e) "User not found") as [E | E].
  - repeat split; auto; intros N; try discriminate N. now elim N.
  - repeat split; auto; intros N; try discriminate N. now elim E.
Qed.

(** C4, as the code has it: [getAll] answers every failure with 500, and
    [getById] every failure whose message is not ['User not found'];
    [CreateUserController.handle] answers every failure, a validation error
    or an adapter or store failure alike, with 400.  In all three the
    envelope has [success = false], the error's message and [data = null]. *)
Theorem controllers_failure_status
  (body : CreateUserUseCase.CreateUserRequest) (params_id : string)
  (now : Z) (s s' : S) (e : JsError) :
  (GetAllUsersUseCase.execute now s = (Throws e, s') ->
   GetUsersController.getAll now s =
     (mkResponse 500 false (message e) PNull, s')) /\
  (GetUserByIdUseCase.execute (JStr params_id) now s = (Throws e, s') ->
   message e <> "User not found" ->
   GetUsersController.getById params_id now s =
     (mkResponse 500 false (message e) PNull, s')) /\
  (CreateUserUseCase.execute body now s = (Throws e, s') ->
   CreateUserController.handle body now s =
     (mkResponse 400 false (message e) PNull, s')).
Proof.
  split; [| split].
  - intros H. unfold GetUsersController.getAll. rewrite H. reflexivity.
  - intros H N. rewrite (getById_on_throw _ _ _ _ _ H).
    destruct (String.eqb_spec (message e) "User not found"); [now elim N |].
    reflexivity.
  - intros H. unfold CreateUserController.handle. rewrite H. reflexivity.
Qed.

End AnyPort.

(** ** Concrete runs of the theorems above *)

Lemma create_user_rejects_missing_fields_witness :
  @CreateUserUseCase.execute _ InMemoryUserRepository.port
     (CreateUserUseCase.mkRequest JUndefined JUndefined JUndefined) 0
     InMemoryUserRepository.new
   = (Throws (Error "Name and email are required"),
      InMemoryUserRepository.new) /\
  @CreateUserUseCase.execute _ InMemoryUserRepository.port
     (CreateUserUseCase.mkRequest (JStr "x") JUndefined JUndefined) 0
     InMemoryUserRepository.new
   = (Throws (Error "Name and email are required"),
      InMemoryUserRepository.new).
Proof.
  split; apply create_user_rejects_missing_fields; simpl; auto.
Defined.

Lemma create_user_builds_entity_witness :
  @CreateUserUseCase.execute _ InMemoryUserRepository.port
     (CreateUserUseCase.mkRequest (JStr "Ann") (JStr "ann@x.com")
                                  (JStr "admin")) 7
     InMemoryUserRepository.new
   = (Returns (UserDTO.mk (JNum 1) (JStr "Ann") (JStr "ann@x.com")
                          (JStr "admin")),
      InMemoryUserRepository.mk
        [InMemoryUserRepository.mkStored 1 (JStr "Ann") (JStr "ann@x.com")
                                         (JStr "admin") (JDate 7)] 2).
Proof.
  rewrite (@create_user_builds_entity _ InMemoryUserRepository.port);
    reflexivity.
Defined.

(** C6 as stated fails: an empty-string role is neither null nor
    undefined, yet the entity is built with role ["user"]. *)
Lemma create_user_empty_role_replaced :
  let data := CreateUserUseCase.mkRequest (JStr "Ann") (JStr "ann@x.com")
                                          (JStr "") in
  nullish (CreateUserUseCase.role data) = false /\
  UserEntity.role (CreateUserUseCase.newUserEntity data 7) = JStr "user" /\
  UserEntity.role (CreateUserUseCase.newUserEntity data 7)
    <> CreateUserUseCase.role data /\
  @CreateUserUseCase.execute _ InMemoryUserRepository.port data 7
     InMemoryUserRepository.new
   = (Returns (UserDTO.mk (JNum 1) (JStr "Ann") (JStr "ann@x.com")
                          (JStr "user")),
      InMemoryUserRepository.mk
        [InMemoryUserRepository.mkStored 1 (JStr "Ann") (JStr "ann@x.com")
                                         (JStr "user") (JDate 7)] 2).
Proof. repeat split. discriminate. Qed.

Lemma getById_status_by_message_witness :
  let r := fst (@GetUsersController.getById _
                  (ThrowingRepository.port (Error "User not found"))
                  "1" 0 tt) in
  (statusCode r = 404 <-> "User not found" = "User not found") /\
  (statusCode r = 500 <-> "User not found" <> "User not found") /\
  success r = false /\ resMessage r = "User not found" /\ data r = PNull.
Proof.
  apply (@getById_status_by_message _
           (ThrowingRepository.port (Error "User not found"))
           "1" 0 tt tt (Error "User not found")).
  reflexivity.
Defined.

Lemma controllers_failure_status_witness :
  let repo := ThrowingRepository.port (Error "connect ECONNREFUSED") in
  let body := CreateUserUseCase.mkRequest (JStr "Ann") (JStr "ann@x.com")
                                          JUndefined in
  @GetUsersController.getAll _ repo 0 tt
    = (mkResponse 500 false "connect ECONNREFUSED" PNull, tt) /\
  @GetUsersController.getById _ repo "1" 0 tt
    = (mkResponse 500 false "connect ECONNREFUSED" PNull, tt) /\
  @CreateUserController.handle _ repo body 0 tt
    = (mkResponse 400 false "connect ECONNREFUSED" PNull, tt).
Proof.
  intros repo body.
  destruct (@controllers_failure_status _ repo body "1" 0 tt tt
              (Error "connect ECONNREFUSED")) as (Hall & Hid & Hcreate).
  split; [| split].
  - apply Hall. reflexivity.
  - apply Hid; [reflexivity | discriminate].
  - apply Hcreate. reflexivity.
Defined.

(** C4 as stated fails: a failure of the adapter during [create], which
    is neither the validation error nor the not-found error, is answered
    with 400, not 500.  Shown with the port's base class, whose [create]
    throws, and with the persistent adapter over a store that is down. *)
Lemma create_controller_store_failure_is_400 :
  let body := CreateUserUseCase.mkRequest (JStr "Ann") (JStr "ann@x.com")
                                          JUndefined in
  @CreateUserUseCase.execute _ UserRepositoryInterface.port body 0 tt
    = (Throws (Error "Method not implemented"), tt) /\
  @CreateUserController.handle _ UserRepositoryInterface.port body 0 tt
    = (mkResponse 400 false "Method not implemented" PNull, tt) /\
  @CreateUserController.handle _
     (@MongoUserRepository.port _ UnreachableStore.model) body 0 tt
    = (mkResponse 400 false "connect ECONNREFUSED" PNull, tt) /\
  statusCode
    (fst (@CreateUserController.handle _ UserRepositoryInterface.port
            body 0 tt)) <> 500.
Proof. repeat split. discriminate. Qed.

(** ** The persistent adapter's [findById] *)

Section AnyStore.

Context {D : Type} {store : UserModel D}.

Lemma mongo_findById_cases (id : jsval) (now : Z) (d : D) :
  MongoUserRepository.repo_findById id now d =
    match model_findById id d with
    | (Returns (Some u), d') =>
        (Returns (Some (MongoUserRepository._mapToEntity u now)), d')
    | (Returns None, d') => (Returns None, d')
    | (Throws _, d') => (Returns None, d')
    end.
Proof.
  unfold MongoUserRepository.repo_findById, try_catch, bind, ret.
  destruct (model_findById id d) as [[[u |] | e] d']; reflexivity.
Qed.

(** The adapter's [findById] never throws, whatever the store does. *)
Lemma mongo_findById_returns (id : jsval) (now : Z) (d : D) :
  exists r d', MongoUserRepository.repo_findById id now d = (Returns r, d').
Proof.
  rewrite mongo_findById_cases.
  destruct (model_findById id d) as [[[u |] | e] d']; eauto.
Qed.

End AnyStore.

(** C3: over any adapter, when [findById] yields the absent value the use
    case throws the not-found error, nothing else, and [getById] answers
    404; and the persistent adapter yields the absent value whenever its
    store throws on the id (a malformed id among them) or finds nothing,
    so that through it the use case ends in not-found and the controller
    in 404 as well. *)
Theorem absent_user_is_not_found :
  (forall (S : Type) (repo : IUserRepository S) (id : jsval) (now : Z)
          (s s' : S),
      findById id now s = (Returns None, s') ->
      GetUserByIdUseCase.execute id now s
        = (Throws (Error "User not found"), s') /\
      forall params_id, id = JStr params_id ->
        GetUsersController.getById params_id now s
          = (mkResponse 404 false "User not found" PNull, s')) /\
  (forall (D : Type) (store : UserModel D) (params_id : string) (now : Z)
          (d d' : D),
      (exists e, model_findById (JStr params_id) d = (Throws e, d')) \/
      model_findById (JStr params_id) d = (Returns None, d') ->
      @findById D MongoUserRepository.port (JStr params_id) now d
        = (Returns None, d') /\
      @GetUserByIdUseCase.execute D MongoUserRepository.port
         (JStr params_id) now d
        = (Throws (Error "User not found"), d') /\
      @GetUsersController.getById D MongoUserRepository.port params_id now d
        = (mkResponse 404 false "User not found" PNull, d')).
Proof.
  assert (generic :
    forall (S : Type) (repo : IUserRepository S) (id : jsval) (now : Z)
           (s s' : S),
      findById id now s = (Returns None, s') ->
      GetUserByIdUseCase.execute id now s
        = (Throws (Error "User not found"), s') /\
      forall params_id, id = JStr params_id ->
        GetUsersController.getById params_id now s
          = (mkResponse 404 false "User not found" PNull, s')).
  { intros S repo id now s s' H.
    pose proof (execute_get_absent id now s s' H) as Hx.
    split; [exact Hx |].
    intros params_id ->.
    rewrite (getById_on_throw _ _ _ _ _ Hx). reflexivity. }
  split; [exact generic |].
  intros D store params_id now d d' H.
  assert (Habsent :
    @findById D MongoUserRepository.port (JStr params_id) now d
      = (Returns None, d')).
  { simpl. rewrite mongo_findById_cases.
    destruct H as [[e H] | H]; rewrite H; reflexivity. }
  split; [exact Habsent |].
  destruct (generic D MongoUserRepository.port _ now d d' Habsent) as [Hx Hc].
  split; [exact Hx | now apply Hc].
Qed.

Lemma absent_user_is_not_found_witness :
  (@GetUserByIdUseCase.execute _ InMemoryUserRepository.port
     (JStr "42") 0 InMemoryUserRepository.new
   = (Throws (Error "User not found"), InMemoryUserRepository.new)) /\
  (@GetUsersController.getById _
     (@MongoUserRepository.port _ UserCollection.model)
     "doesnotexist" 0 UserCollection.empty
   = (mkResponse 404 false "User not found" PNull, UserCollection.empty)) /\
  (@GetUsersController.getById _
     (@MongoUserRepository.port _ UserCollection.model)
     "0000000000000000000000ff" 0 UserCollection.empty
   = (mkResponse 404 false "User not found" PNull, UserCollection.empty)).
Proof.
  destruct absent_user_is_not_found as [Hport Hmongo].
  split; [| split].
  - apply (Hport _ InMemoryUserRepository.port (JStr "42") 0
             InMemoryUserRepository.new InMemoryUserRepository.new).
    reflexivity.
  - apply (Hmongo _ UserCollection.model "doesnotexist" 0
             UserCollection.empty UserCollection.empty).
    left. eexists. reflexivity.
  - apply (Hmongo _ UserCollection.model "0000000000000000000000ff" 0
             UserCollection.empty UserCollection.empty).
    right. reflexivity.
Defined.

(** ** parseInt *)

Ltac each_char c := destruct c as [[] [] [] [] [] [] [] []].

Lemma digit_is_plain (c : ascii) (r : string) (d : Z) :
  digit_value 10 c = Some d ->
  trim_start (String c r) = String c r /\
  strip_sign (String c r) = (1, String c r).
Proof.
  intros H. each_char c; cbv in H; try discriminate H; split; reflexivity.
Qed.

Lemma strip_prefix_cases (s : string) :
  (exists r, (s = String "0" (String "x" r) \/ s = String "0" (String "X" r))
             /\ strip_prefix s = (16, r))
  \/ strip_prefix s = (10, s).
Proof.
  destruct s as [| c [| c' r]]; try (right; reflexivity).
  - each_char c; right; reflexivity.
  - each_char c; try (right; reflexivity).
    each_char c'; try (right; reflexivity);
      left; exists r; split; auto.
Qed.

Lemma strip_prefix_decimal (s : string) (n : Z) :
  leading_decimal s = Some n -> n <> 0 -> strip_prefix s = (10, s).
Proof.
  intros H Hn.
  destruct (strip_prefix_cases s) as [(r & [-> | ->] & _) | E]; auto;
    cbv in H; congruence.
Qed.

Lemma parseInt_leading_decimal (s : string) (n : Z) :
  leading_decimal s = Some n -> n <> 0 -> parseInt s = Some n.
Proof.
  intros H Hn.
  pose proof (strip_prefix_decimal s n H Hn) as Hp.
  destruct s as [| c r]; [discriminate H |].
  unfold leading_decimal in H. simpl in H.
  destruct (digit_value 10 c) as [d |] eqn:Ed; [| discriminate H].
  destruct (digit_is_plain c r d Ed) as [Ht Hs].
  unfold parseInt. rewrite Ht, Hs, Hp. simpl. rewrite Ed, H.
  f_equal. destruct n; reflexivity.
Qed.

Lemma parseInt_no_digit (s : string) :
  starts_with_digit (snd (strip_sign (trim_start s))) = false ->
  parseInt s = None.
Proof.
  unfold parseInt. destruct (strip_sign (trim_start s)) as [sign s2].
  simpl. intros H.
  destruct (strip_prefix_cases s2) as [(r & [-> | ->] & _) | E];
    try discriminate H.
  rewrite E. destruct s2 as [| c r]; [reflexivity |].
  simpl in *. destruct (digit_value 10 c); [discriminate H | reflexivity].
Qed.

Ltac read_one_digit :=
  cbn [read_digits NilEmpty.string_of_uint uint_value];
  match goal with
  | |- context [digit_value 10 ?c] =>
      let v := eval vm_compute in (digit_value 10 c) in
      change (digit_value 10 c) with v
  end;
  cbv iota.

Lemma read_digits_uint (u : Decimal.uint) (acc : Z) :
  read_digits 10 (NilEmpty.string_of_uint u) acc true
    = Some (uint_value u acc).
Proof.
  revert acc. induction u; intros acc; [reflexivity | ..];
    read_one_digit; apply IHu.
Qed.

Lemma read_digits_uint_nonnil (u : Decimal.uint) (acc : Z) (seen : bool) :
  u <> Decimal.Nil ->
  read_digits 10 (NilEmpty.string_of_uint u) acc seen
    = Some (uint_value u acc).
Proof.
  intros Hu. destruct u; [now elim Hu | ..];
    read_one_digit; apply read_digits_uint.
Qed.

Lemma of_uint_acc_value (u : Decimal.uint) (p : positive) :
  Z.pos (Pos.of_uint_acc u p) = uint_value u (Z.pos p).
Proof.
  revert p. induction u; intros p; cbn [Pos.of_uint_acc uint_value];
    [reflexivity | rewrite IHu; f_equal; lia ..].
Qed.

Lemma of_uint_value (u : Decimal.uint) :
  Z.of_N (Pos.of_uint u) = uint_value u 0.
Proof.
  induction u; cbn [Pos.of_uint uint_value]; auto;
    cbn [Z.of_N]; apply of_uint_acc_value.
Qed.

Lemma leading_decimal_pos (p : positive) :
  leading_decimal (NilEmpty.string_of_uint (Pos.to_uint p)) = Some (Z.pos p).
Proof.
  unfold leading_decimal.
  rewrite read_digits_uint_nonnil by apply DecimalPos.Unsigned.to_uint_nonnil.
  rewrite <- of_uint_value, DecimalPos.Unsigned.of_to. reflexivity.
Qed.

(** Reading back the decimal text of an integer gives the integer:
    [parseInt(String(n)) === n]. *)
Lemma parseInt_decimal (n : Z) : parseInt (decimal n) = Some n.
Proof.
  destruct n as [| p | p]; unfold decimal; simpl.
  - reflexivity.
  - apply parseInt_leading_decimal; [apply leading_decimal_pos | discriminate].
  - unfold parseInt. simpl.
    pose proof (leading_decimal_pos p) as H.
    rewrite (strip_prefix_decimal _ _ H) by discriminate.
    unfold leading_decimal in H. rewrite H. reflexivity.
Qed.

(** ** The in-memory adapter *)

Module InMemoryFacts.

Import InMemoryUserRepository.

Lemma find_snoc {A} (f : A -> bool) (l : list A) (x : A) :
  find f l = None ->
  find f (l ++ [x])%list = if f x then Some x else None.
Proof.
  induction l as [| a l IH]; simpl; [reflexivity |].
  destruct (f a); [discriminate | exact IH].
Qed.

Lemma find_id_fresh (l : list StoredUser) (n : Z) :
  Forall (fun u => id u < n) l -> find (fun u => id u =? n) l = None.
Proof.
  induction 1 as [| u l Hu _ IH]; simpl; [reflexivity |].
  destruct (Z.eqb_spec (id u) n); [lia | exact IH].
Qed.

Lemma find_id_unique (l : list StoredUser) (u : StoredUser) :
  NoDup (map id l) -> In u l -> find (fun v => id v =? id u) l = Some u.
Proof.
  induction l as [| a l IH]; simpl; intros Hnd Hin; [contradiction |].
  inversion Hnd as [| ? ? Hnotin Hnd']; subst.
  destruct Hin as [-> | Hin].
  - rewrite Z.eqb_refl. reflexivity.
  - destruct (Z.eqb_spec (id a) (id u)) as [E | _].
    + exfalso. apply Hnotin. rewrite E. now apply in_map.
    + now apply IH.
Qed.

Lemma invariant_new : invariant new.
Proof. repeat split; simpl; constructor. Qed.

Lemma invariant_create (this : t) (userEntity : UserEntity.t) (now : Z) :
  invariant this -> invariant (snd (repo_create userEntity now this)).
Proof.
  intros (Hnd & Hall & Hpos). split; [| split]; simpl; [| | lia].
  - rewrite map_app. simpl.
    rewrite <- (rev_involutive (map id (users this) ++ [currentId this])%list).
    apply NoDup_rev. rewrite rev_app_distr. simpl. constructor.
    + rewrite <- in_rev. intros Hin. apply in_map_iff in Hin.
      destruct Hin as (u & Hu & Hin).
      rewrite Forall_forall in Hall. specialize (Hall u Hin). simpl in Hall.
      lia.
    + now apply NoDup_rev.
  - apply Forall_app. split.
    + eapply Forall_impl; [| exact Hall]. simpl. intros u Hu. lia.
    + constructor; [simpl; lia | constructor].
Qed.

(** What the three use cases do over this adapter. *)

Lemma execute_create (data : CreateUserUseCase.CreateUserRequest) (now : Z)
  (this : t) :
  valid_request data = true ->
  @CreateUserUseCase.execute _ port data now this =
    (Returns
       (UserDTO.mk (JNum (currentId this)) (CreateUserUseCase.name data)
          (CreateUserUseCase.email data)
          (if truthy (CreateUserUseCase.role data)
           then CreateUserUseCase.role data else JStr "user")),
     {| users := (users this ++
          [mkStored (currentId this) (CreateUserUseCase.name data)
             (CreateUserUseCase.email data)
             (if truthy (CreateUserUseCase.role data)
              then CreateUserUseCase.role data else JStr "user")
             (JDate now)])%list;
        currentId := currentId this + 1 |}).
Proof.
  intros Hv. apply andb_true_iff in Hv. destruct Hv as [Hn He].
  rewrite (@execute_create_valid _ port data now this Hn He). reflexivity.
Qed.

Lemma execute_getAll (now : Z) (this : t) :
  @GetAllUsersUseCase.execute _ port now this =
    (Returns (map stored_dto (users this)), this).
Proof.
  unfold GetAllUsersUseCase.execute, bind, ret. simpl.
  unfold repo_findAll. rewrite map_map. reflexivity.
Qed.

Lemma findById_parsed (id_arg : jsval) (now : Z) (this : t) (n : Z) :
  parseInt (ToString id_arg) = Some n ->
  repo_findById id_arg now this =
    match find (fun u => id u =? n) (users this) with
    | None => (Returns None, this)
    | Some user => (Returns (Some (rehydrate user now)), this)
    end.
Proof. intros H. unfold repo_findById. rewrite H. reflexivity. Qed.

Lemma findById_NaN (id_arg : jsval) (now : Z) (this : t) :
  parseInt (ToString id_arg) = None ->
  repo_findById id_arg now this = (Returns None, this).
Proof.
  intros H. unfold repo_findById. rewrite H. simpl.
  induction (users this) as [| u l IH]; simpl; auto.
Qed.

Lemma create_users_in_memory
  (inputs : list (CreateUserUseCase.CreateUserRequest * Z)) (this : t) :
  let '(os, this') := @create_users _ port inputs this in
  map stored_dto (users this')
    = (map stored_dto (users this) ++ returned os)%list /\
  List.length (returned os)
    = List.length (filter (fun i => valid_request (fst i)) inputs).
Proof.
  revert this. induction inputs as [| [data now] rest IH]; intros this.
  - simpl. rewrite app_nil_r. auto.
  - cbn [create_users filter fst].
    destruct (valid_request data) eqn:Hv.
    + rewrite (execute_create data now this Hv).
      match goal with
      | |- context [create_users rest ?s] =>
          specialize (IH s); destruct (create_users rest s) as [os this']
      end.
      destruct IH as [IH1 IH2]. cbn [returned List.length]. split.
      * rewrite IH1. cbn [users]. rewrite map_app, <- app_assoc. reflexivity.
      * cbv iota. cbn [List.length]. now rewrite IH2.
    + unfold valid_request in Hv. apply andb_false_iff in Hv.
      rewrite (@execute_create_invalid _ port data now this Hv).
      specialize (IH this). destruct (create_users rest this) as [os this'].
      exact IH.
Qed.

End InMemoryFacts.

(** C1, as the code has it: over the in-memory adapter, in a state that
    satisfies its invariant and whose counter is in the range where
    numbers are exact, creating a user from a valid input and then getting
    the user by the returned id (the number itself, or its text as a route
    parameter carries it) yields the very DTO the creation returned; its
    name and email are the input's, and its role is the input's role when
    that is truthy and ["user"] when it is omitted, null or empty. *)
Theorem create_then_get_by_id
  (this : InMemoryUserRepository.t)
  (data : CreateUserUseCase.CreateUserRequest) (now now' : Z) :
  InMemoryUserRepository.invariant this ->
  InMemoryUserRepository.currentId this < 2 ^ 53 ->
  valid_request data = true ->
  exists dto this',
    @CreateUserUseCase.execute _ InMemoryUserRepository.port data now this
      = (Returns dto, this') /\
    @GetUserByIdUseCase.execute _ InMemoryUserRepository.port
       (UserDTO.id dto) now' this' = (Returns dto, this') /\
    @GetUserByIdUseCase.execute _ InMemoryUserRepository.port
       (JStr (ToString (UserDTO.id dto))) now' this' = (Returns dto, this') /\
    UserDTO.name dto = CreateUserUseCase.name data /\
    UserDTO.email dto = CreateUserUseCase.email data /\
    UserDTO.role dto =
      (if truthy (CreateUserUseCase.role data)
       then CreateUserUseCase.role data else JStr "user").
Proof.
  intros (_ & Hall & _) _ Hv.
  rewrite (InMemoryFacts.execute_create data now this Hv).
  do 2 eexists. split; [reflexivity |].
  assert (Hfind : forall id_arg,
    parseInt (ToString id_arg) = Some (InMemoryUserRepository.currentId this) ->
    forall s', s' = {|
      InMemoryUserRepository.users :=
        (InMemoryUserRepository.users this ++
          [InMemoryUserRepository.mkStored
             (InMemoryUserRepository.currentId this)
             (CreateUserUseCase.name data) (CreateUserUseCase.email data)
             (if truthy (CreateUserUseCase.role data)
              then CreateUserUseCase.role data else JStr "user")
             (JDate now)])%list;
      InMemoryUserRepository.currentId :=
        InMemoryUserRepository.currentId this + 1 |} ->
    @GetUserByIdUseCase.execute _ InMemoryUserRepository.port id_arg now' s'
      = (Returns
           (UserDTO.mk (JNum (InMemoryUserRepository.currentId this))
              (CreateUserUseCase.name data) (CreateUserUseCase.email data)
              (if truthy (CreateUserUseCase.role data)
               then CreateUserUseCase.role data else JStr "user")), s')).
  { intros id_arg Hp s' ->.
    unfold GetUserByIdUseCase.execute, bind.
    cbn [findById InMemoryUserRepository.port].
    rewrite (InMemoryFacts.findById_parsed _ _ _ _ Hp).
    cbn [InMemoryUserRepository.users].
    rewrite InMemoryFacts.find_snoc.
    - cbn [InMemoryUserRepository.id]. rewrite Z.eqb_refl. reflexivity.
    - apply InMemoryFacts.find_id_fresh.
      eapply Forall_impl; [| exact Hall]. simpl. intros u Hu. lia. }
  split; [| split].
  - apply Hfind; [apply parseInt_decimal | reflexivity].
  - apply Hfind; [apply parseInt_decimal | reflexivity].
  - repeat split.
Qed.

Lemma create_then_get_by_id_witness :
  exists dto this',
    @CreateUserUseCase.execute _ InMemoryUserRepository.port
       (CreateUserUseCase.mkRequest (JStr "John") (JStr "john@x.com")
                                    JUndefined) 5
       InMemoryUserRepository.new = (Returns dto, this') /\
    @GetUserByIdUseCase.execute _ InMemoryUserRepository.port
       (UserDTO.id dto) 6 this' = (Returns dto, this') /\
    @GetUserByIdUseCase.execute _ InMemoryUserRepository.port
       (JStr (ToString (UserDTO.id dto))) 6 this' = (Returns dto, this') /\
    UserDTO.name dto = JStr "John" /\
    UserDTO.email dto = JStr "john@x.com" /\
    UserDTO.role dto = JStr "user".
Proof.
  apply (create_then_get_by_id InMemoryUserRepository.new
           (CreateUserUseCase.mkRequest (JStr "John") (JStr "john@x.com")
                                        JUndefined) 5 6).
  - repeat split; simpl; constructor.
  - reflexivity.
  - reflexivity.
Defined.

(** C1 as stated fails: with the role given as the empty string, the
    DTO read back has role ["user"], not the input's role. *)
Lemma create_then_get_empty_role :
  let data := CreateUserUseCase.mkRequest (JStr "John") (JStr "john@x.com")
                                          (JStr "") in
  let this' :=
    snd (@CreateUserUseCase.execute _ InMemoryUserRepository.port data 5
           InMemoryUserRepository.new) in
  valid_request data = true /\
  @CreateUserUseCase.execute _ InMemoryUserRepository.port data 5
     InMemoryUserRepository.new
    = (Returns (UserDTO.mk (JNum 1) (JStr "John") (JStr "john@x.com")
                           (JStr "user")), this') /\
  @GetUserByIdUseCase.execute _ InMemoryUserRepository.port (JNum 1) 6 this'
    = (Returns (UserDTO.mk (JNum 1) (JStr "John") (JStr "john@x.com")
                           (JStr "user")), this') /\
  JStr "user" <> CreateUserUseCase.role data.
Proof. repeat split. discriminate. Qed.

Lemma returned_is_listing
  (inputs : list (CreateUserUseCase.CreateUserRequest * Z)) :
  forall this : InMemoryUserRepository.t,
    returned (fst (@create_users _ InMemoryUserRepository.port inputs this))
      = listing_of inputs (InMemoryUserRepository.currentId this).
Proof.
  induction inputs as [| [data now] rest IH]; intros this; [reflexivity |].
  cbn [create_users listing_of].
  destruct (valid_request data) eqn:Hv.
  - rewrite (InMemoryFacts.execute_create data now this Hv).
    match goal with
    | |- context [create_users rest ?s] =>
        specialize (IH s); destruct (create_users rest s) as [os this']
    end.
    cbn [fst returned InMemoryUserRepository.currentId] in *.
    now rewrite IH.
  - unfold valid_request in Hv. apply andb_false_iff in Hv.
    rewrite (@execute_create_invalid _ InMemoryUserRepository.port
               data now this Hv).
    specialize (IH this).
    destruct (create_users rest this) as [os this'].
    cbn [fst returned] in *. exact IH.
Qed.

(** C7: over the in-memory adapter, [GetAllUsers.execute] on the new
    repository returns the empty list; after any run of creations from the
    new repository it returns exactly one DTO for each input that passed
    validation, in the order of creation, carrying that input's name and
    email, its role or ["user"], and the ids 1, 2, ... ([listing_of]);
    these are the DTOs the successful creations returned, as many as
    there were valid inputs; and it leaves the state as it found it.
    Over any adapter it maps what [findAll] returns to DTOs in the same
    order. *)
Theorem get_all_users_lists_creations :
  (forall now,
     @GetAllUsersUseCase.execute _ InMemoryUserRepository.port now
        InMemoryUserRepository.new
       = (Returns [], InMemoryUserRepository.new)) /\
  (forall (inputs : list (CreateUserUseCase.CreateUserRequest * Z)) (now : Z),
     let '(os, this) :=
       @create_users _ InMemoryUserRepository.port inputs
          InMemoryUserRepository.new in
     @GetAllUsersUseCase.execute _ InMemoryUserRepository.port now this
       = (Returns (listing_of inputs 1), this) /\
     returned os = listing_of inputs 1 /\
     List.length (listing_of inputs 1)
       = List.length (filter (fun i => valid_request (fst i)) inputs)) /\
  (forall (S : Type) (repo : IUserRepository S) (now : Z) (s : S),
     GetAllUsersUseCase.execute now s =
       match findAll now s with
       | (Returns users, s') => (Returns (map UserMapper.toDTO users), s')
       | (Throws e, s') => (Throws e, s')
       end).
Proof.
  split; [| split].
  - intros now. reflexivity.
  - intros inputs now.
    pose proof (InMemoryFacts.create_users_in_memory inputs
                  InMemoryUserRepository.new) as H.
    pose proof (returned_is_listing inputs InMemoryUserRepository.new) as HL.
    destruct (create_users inputs InMemoryUserRepository.new) as [os this].
    destruct H as [H1 H2]. cbn [fst] in HL.
    change (InMemoryUserRepository.currentId InMemoryUserRepository.new)
      with 1 in HL.
    rewrite <- HL. split; [| split; [reflexivity | exact H2]].
    rewrite InMemoryFacts.execute_getAll, H1. reflexivity.
  - intros S repo now s. unfold GetAllUsersUseCase.execute, bind, ret.
    destruct (findAll now s) as [[users | e] s']; reflexivity.
Qed.

(** C10, as the code has it: in a state that satisfies the invariant, for
    a stored user with id [n], every string whose leading decimal digits
    denote [n] (such as ["1abc"] for the user with id 1) returns that
    user; and every string that does not begin with a decimal digit once
    its leading white space and an optional sign are removed returns the
    absent value. *)
Theorem findById_by_leading_digits (this : InMemoryUserRepository.t)
  (now : Z) :
  InMemoryUserRepository.invariant this ->
  (forall (u : InMemoryUserRepository.StoredUser) (s : string),
     In u (InMemoryUserRepository.users this) ->
     leading_decimal s = Some (InMemoryUserRepository.id u) ->
     InMemoryUserRepository.repo_findById (JStr s) now this
       = (Returns (Some (InMemoryUserRepository.rehydrate u now)), this)) /\
  (forall s : string,
     starts_with_digit (snd (strip_sign (trim_start s))) = false ->
     InMemoryUserRepository.repo_findById (JStr s) now this
       = (Returns None, this)).
Proof.
  intros (Hnd & Hall & _). split.
  - intros u s Hin Hs.
    assert (Hn : InMemoryUserRepository.id u <> 0).
    { rewrite Forall_forall in Hall. specialize (Hall u Hin).
      simpl in Hall. lia. }
    rewrite (InMemoryFacts.findById_parsed (JStr s) now this
               (InMemoryUserRepository.id u)).
    + now rewrite (InMemoryFacts.find_id_unique _ u Hnd Hin).
    + simpl. now apply parseInt_leading_decimal.
  - intros s Hs. apply InMemoryFacts.findById_NaN. simpl.
    now apply parseInt_no_digit.
Qed.

Lemma findById_by_leading_digits_witness :
  InMemoryUserRepository.repo_findById (JStr "1abc") 6 one_user
    = (Returns (Some (UserEntity.mk (JNum 1) (JStr "John")
                        (JStr "john@x.com") (JStr "user") (JDate 5))),
       one_user) /\
  InMemoryUserRepository.repo_findById (JStr "abc") 6 one_user
    = (Returns None, one_user).
Proof.
  assert (Hinv : InMemoryUserRepository.invariant one_user).
  { split; [| split]; simpl.
    - constructor; [intros [] | constructor].
    - constructor; [simpl; lia | constructor].
    - lia. }
  destruct (findById_by_leading_digits one_user 6 Hinv) as [Ha Hb].
  split.
  - apply (Ha (InMemoryUserRepository.mkStored 1 (JStr "John")
                 (JStr "john@x.com") (JStr "user") (JDate 5)) "1abc").
    + left. reflexivity.
    + reflexivity.
  - apply (Hb "abc"). reflexivity.
Defined.

(** C10 as stated fails: [" 1"] and ["+1"] have no leading digit, yet
    [parseInt] skips the blank and the sign and the stored user 1 is
    returned. *)
Lemma findById_blank_or_sign_before_digits :
  one_user = snd (@CreateUserUseCase.execute _ InMemoryUserRepository.port
                    (CreateUserUseCase.mkRequest (JStr "John")
                       (JStr "john@x.com") JUndefined) 5
                    InMemoryUserRepository.new) /\
  starts_with_digit " 1" = false /\
  starts_with_digit "+1" = false /\
  parseInt " 1" = Some 1 /\
  parseInt "+1" = Some 1 /\
  InMemoryUserRepository.repo_findById (JStr " 1") 6 one_user
    = (Returns (Some (UserEntity.mk (JNum 1) (JStr "John")
                        (JStr "john@x.com") (JStr "user") (JDate 5))),
       one_user) /\
  InMemoryUserRepository.repo_findById (JStr "+1") 6 one_user
    = (Returns (Some (UserEntity.mk (JNum 1) (JStr "John")
                        (JStr "john@x.com") (JStr "user") (JDate 5))),
       one_user) /\
  InMemoryUserRepository.repo_findById (JStr " 1") 6 one_user
    <> (Returns None, one_user).
Proof. repeat split. discriminate. Qed.

(** ** The reference store *)

Module StoreFacts.

Import UserCollection.

Lemma code_of_hex_char (d : N) :
  (d < 16)%N ->
  N_of_ascii (hex_char d) = if (d <? 10)%N then (48 + d)%N else (87 + d)%N.
Proof.
  intros Hd. unfold hex_char.
  destruct (d <? 10)%N; apply N_ascii_embedding; lia.
Qed.

Lemma hex_char_inj (a b : N) :
  (a < 16)%N -> (b < 16)%N -> hex_char a = hex_char b -> a = b.
Proof.
  intros Ha Hb H. apply (f_equal N_of_ascii) in H.
  rewrite !code_of_hex_char in H by assumption.
  destruct (N.ltb_spec a 10), (N.ltb_spec b 10); lia.
Qed.

Lemma hex_char_is_hex (d : N) : (d < 16)%N -> is_hex (hex_char d) = true.
Proof.
  intros Hd.
  assert (H : In d [0; 1; 2; 3; 4; 5; 6; 7; 8; 9; 10; 11; 12; 13; 14; 15]%N).
  { simpl. lia. }
  simpl in H.
  repeat (destruct H as [<- | H]; [reflexivity |]). contradiction.
Qed.

Lemma hex_digits_inj (k : nat) :
  forall (a b : N) (acc acc' : string),
    (a < 16 ^ N.of_nat k)%N -> (b < 16 ^ N.of_nat k)%N ->
    hex_digits k a acc = hex_digits k b acc' -> a = b /\ acc = acc'.
Proof.
  induction k as [| k IH]; intros a b acc acc' Ha Hb H.
  - simpl in *. split; [lia | exact H].
  - rewrite Nat2N.inj_succ, N.pow_succ_r' in Ha, Hb.
    cbn [hex_digits] in H.
    apply IH in H; [| apply N.Div0.div_lt_upper_bound; lia ..].
    destruct H as [Hq Hr]. injection Hr as Hc Hacc.
    apply hex_char_inj in Hc; [| apply N.mod_lt; lia ..].
    split; [| exact Hacc].
    rewrite (N.div_mod a 16), (N.div_mod b 16) by lia. now rewrite Hq, Hc.
Qed.

Lemma objectId_inj (a b : N) :
  (a < 16 ^ 24)%N -> (b < 16 ^ 24)%N -> objectId a = objectId b -> a = b.
Proof.
  intros Ha Hb H. now apply (hex_digits_inj 24 a b "" "") in H.
Qed.

Lemma hex_digits_length (k : nat) :
  forall (n : N) (acc : string),
    String.length (hex_digits k n acc) = (k + String.length acc)%nat.
Proof.
  induction k as [| k IH]; intros n acc; cbn [hex_digits]; [reflexivity |].
  rewrite IH. simpl. lia.
Qed.

Lemma hex_digits_all_hex (k : nat) :
  forall (n : N) (acc : string),
    all_hex (hex_digits k n acc) = all_hex acc.
Proof.
  induction k as [| k IH]; intros n acc; cbn [hex_digits]; [reflexivity |].
  rewrite IH. cbn [all_hex].
  rewrite hex_char_is_hex by (apply N.mod_lt; lia). reflexivity.
Qed.

Lemma hex_char_lower (d : N) :
  (d < 16)%N -> lower_hex (hex_char d) = hex_char d.
Proof.
  intros Hd.
  assert (H : In d [0; 1; 2; 3; 4; 5; 6; 7; 8; 9; 10; 11; 12; 13; 14; 15]%N).
  { simpl. lia. }
  simpl in H.
  repeat (destruct H as [<- | H]; [reflexivity |]). contradiction.
Qed.

Lemma hex_digits_lower (k : nat) :
  forall (n : N) (acc : string),
    lower_hex_string (hex_digits k n acc)
      = hex_digits k n (lower_hex_string acc).
Proof.
  induction k as [| k IH]; intros n acc; cbn [hex_digits]; [reflexivity |].
  rewrite IH. cbn [lower_hex_string].
  rewrite hex_char_lower by (apply N.mod_lt; lia). reflexivity.
Qed.

Lemma objectId_lower (n : N) : lower_hex_string (objectId n) = objectId n.
Proof. unfold objectId. now rewrite hex_digits_lower. Qed.

Lemma objectId_valid (n : N) : isValidObjectId (objectId n) = true.
Proof.
  unfold isValidObjectId, objectId.
  rewrite hex_digits_length, hex_digits_all_hex. reflexivity.
Qed.

Lemma invariant_empty : invariant empty.
Proof. repeat split; simpl; try constructor. lia. Qed.

Lemma invariant_insert (c : t) (name email role createdAt : jsval) :
  invariant c -> (inserted c < 16 ^ 24)%N ->
  invariant
    {| documents :=
         documents c ++
           [mkDocument (objectId (inserted c)) name email role createdAt];
       inserted := (inserted c + 1)%N |}.
Proof.
  intros (Hnd & Hall & Hle) Hlt. repeat split; cbn [documents inserted].
  - rewrite map_app. cbn [map doc_id].
    rewrite <- (rev_involutive (_ ++ _)%list).
    apply NoDup_rev. rewrite rev_app_distr. simpl. constructor.
    + rewrite <- in_rev. intros Hin. apply in_map_iff in Hin.
      destruct Hin as (x & Hx & Hin).
      rewrite Forall_forall in Hall. destruct (Hall x Hin) as (k & Hk & Hid).
      rewrite Hid in Hx. apply objectId_inj in Hx; lia.
    + now apply NoDup_rev.
  - apply Forall_app. split.
    + eapply Forall_impl; [| exact Hall]. cbn beta.
      intros x (k & Hk & Hid). exists k. split; [lia | exact Hid].
    + constructor; [| constructor]. exists (inserted c). split; [lia |].
      reflexivity.
  - lia.
Qed.

Lemma find_key_unique {A} (key : A -> string) (l : list A) (x : A) :
  NoDup (map key l) -> In x l ->
  find (fun v => String.eqb (key v) (key x)) l = Some x.
Proof.
  induction l as [| a l IH]; simpl; intros Hnd Hin; [contradiction |].
  inversion Hnd as [| ? ? Hnotin Hnd']; subst.
  destruct Hin as [-> | Hin].
  - rewrite String.eqb_refl. reflexivity.
  - destruct (String.eqb_spec (key a) (key x)) as [E | _].
    + exfalso. apply Hnotin. rewrite E. now apply in_map.
    + now apply IH.
Qed.

Lemma email_is_new (c : t) (e : string) :
  ~ In (JStr e) (map doc_email (documents c)) ->
  existsb (fun d => same_string (doc_email d) (JStr e)) (documents c) = false.
Proof.
  intros Hnot. destruct (existsb _ _) eqn:E; [| reflexivity].
  exfalso. apply Hnot. apply existsb_exists in E.
  destruct E as (x & Hin & Hs). apply in_map_iff. exists x.
  split; [| exact Hin].
  destruct (doc_email x); simpl in Hs; try discriminate.
  apply String.eqb_eq in Hs. now subst.
Qed.

End StoreFacts.

(** ** The two adapters behind the same use cases *)

Module SubstitutionFacts.

Import InMemoryUserRepository.
Import Substitution.

Lemma sim_initial : sim [] [] new UserCollection.empty.
Proof.
  refine (conj InMemoryFacts.invariant_new
            (conj StoreFacts.invariant_empty (conj _ (conj _ _))));
    simpl; constructor.
Qed.

Lemma mongo_create (b : UserCollection.behaviour)
  (data : CreateUserUseCase.CreateUserRequest) (now : Z)
  (c : UserCollection.t) :
  typed_command (CreateUser data) = true ->
  valid_request data = true ->
  ~ In (CreateUserUseCase.email data)
       (map doc_email (UserCollection.documents c)) ->
  let role' :=
    if truthy (CreateUserUseCase.role data)
    then CreateUserUseCase.role data else JStr "user" in
  @CreateUserUseCase.execute _ (mongo_in b) data now c =
    (Returns
       (UserDTO.mk (JStr (UserCollection.objectId (UserCollection.inserted c)))
          (CreateUserUseCase.name data) (CreateUserUseCase.email data) role'),
     {| UserCollection.documents :=
          UserCollection.documents c ++
            [mkDocument (UserCollection.objectId (UserCollection.inserted c))
               (CreateUserUseCase.name data) (CreateUserUseCase.email data)
               role' (JDate now)];
        UserCollection.inserted := (UserCollection.inserted c + 1)%N |}).
Proof.
  intros Ht Hv Hnew role'. subst role'.
  pose proof Hv as Hv'. apply andb_true_iff in Hv'. destruct Hv' as [Hn He].
  rewrite (@execute_create_valid _ (mongo_in b) data now c Hn He).
  destruct data as [n e r]. cbn [CreateUserUseCase.name CreateUserUseCase.email
    CreateUserUseCase.role typed_command] in *.
  apply andb_true_iff in Ht. destruct Ht as [Ht Hr].
  apply andb_true_iff in Ht. destruct Ht as [Htn Hte].
  destruct n as [| | | | n |]; try discriminate.
  destruct e as [| | | | e |]; try discriminate.
  assert (Hrole : exists r', (if truthy r then r else JStr "user") = JStr r').
  { destruct r; try discriminate; simpl; eauto.
    destruct (String.eqb s ""); simpl; eauto. }
  destruct Hrole as [r' Hr'].
  unfold CreateUserUseCase.newUserEntity, js_or.
  cbn [CreateUserUseCase.name CreateUserUseCase.email CreateUserUseCase.role].
  rewrite Hr'.
  cbn [create mongo_in MongoUserRepository.port].
  unfold MongoUserRepository.repo_create.
  cbn [model_save UserCollection.model_in].
  unfold bind, ret, UserCollection.save_in.
  cbn [UserEntity.new UserEntity.name UserEntity.email UserEntity.role
       f_name f_email f_role UserCollection.cast_string ToString
       UserCollection.required_ok].
  simpl in Hn, He. rewrite Hn, He. cbn [negb orb].
  rewrite (StoreFacts.email_is_new c e Hnew). reflexivity.
Qed.

Lemma mongo_getAll (b : UserCollection.behaviour) (now : Z)
  (c : UserCollection.t) :
  @GetAllUsersUseCase.execute _ (mongo_in b) now c =
    (Returns (map UserCollection.doc_dto
                (UserCollection.listing b (UserCollection.documents c))), c).
Proof.
  unfold GetAllUsersUseCase.execute, bind, ret. simpl.
  rewrite map_map. reflexivity.
Qed.

Lemma mongo_get_created (b : UserCollection.behaviour) (x : UserDocument)
  (now : Z) (c : UserCollection.t) :
  UserCollection.invariant c -> In x (UserCollection.documents c) ->
  @GetUserByIdUseCase.execute _ (mongo_in b) (JStr (doc_id x)) now c =
    (Returns (UserCollection.doc_dto x), c).
Proof.
  intros (Hnd & Hall & _) Hin.
  unfold GetUserByIdUseCase.execute, bind.
  cbn [findById mongo_in MongoUserRepository.port].
  rewrite mongo_findById_cases.
  cbn [model_findById UserCollection.model_in].
  unfold UserCollection.find_by_id_in.
  rewrite Forall_forall in Hall. destruct (Hall x Hin) as (k & _ & Hid).
  assert (Hvalid : UserCollection.isValidObjectId (doc_id x) = true)
    by (rewrite Hid; apply StoreFacts.objectId_valid).
  assert (Hlower : UserCollection.lower_hex_string (doc_id x) = doc_id x)
    by (rewrite Hid; apply StoreFacts.objectId_lower).
  rewrite Hvalid, Hlower.
  rewrite (StoreFacts.find_key_unique doc_id _ x Hnd Hin). reflexivity.
Qed.

Lemma memory_get_created (u : StoredUser) (now : Z) (m : t) :
  invariant m -> In u (users m) ->
  @GetUserByIdUseCase.execute _ port (JNum (id u)) now m =
    (Returns (stored_dto u), m).
Proof.
  intros (Hnd & _) Hin.
  unfold GetUserByIdUseCase.execute, bind. cbn [findById port].
  rewrite (InMemoryFacts.findById_parsed _ _ _ (id u))
    by apply parseInt_decimal.
  rewrite (InMemoryFacts.find_id_unique _ u Hnd Hin). reflexivity.
Qed.

Lemma Forall2_nth_error {A B} (R : A -> B -> Prop) (l : list A)
  (l' : list B) (k : nat) :
  Forall2 R l l' ->
  (exists a b, nth_error l k = Some a /\ nth_error l' k = Some b /\ R a b)
  \/ (nth_error l k = None /\ nth_error l' k = None).
Proof.
  intros H. revert k. induction H as [| a b l l' Hab _ IH]; intros k.
  - right. destruct k; auto.
  - destruct k as [| k]; simpl; [left; eauto | apply IH].
Qed.

Lemma same_user_agree (u : StoredUser) (x : UserDocument) :
  rec_agree u x -> same_user (stored_dto u) (UserCollection.doc_dto x).
Proof. intros H. exact H. Qed.

Lemma listed_agree (us : list StoredUser) (xs : list UserDocument) :
  Forall2 rec_agree us xs ->
  Forall2 same_user (map stored_dto us) (map UserCollection.doc_dto xs).
Proof.
  induction 1 as [| u x us xs Hux _ IH]; simpl; constructor; auto.
Qed.

Ltac keep_sim :=
  refine (conj _ (conj _ (conj _ (conj _ _))));
  (assumption || reflexivity).

(** The simulation: from related states, a run in which the fields are
    strings or absent and no email is created twice (nor is in the store
    already) is observed alike through both adapters, in whatever order
    the store lists and whatever errors it throws. *)
Lemma run_alike (b : UserCollection.behaviour)
  (Horder : forall l, Permutation (UserCollection.listing b l) l)
  (cmds : list (command * Z)) :
  forall (ids_m ids_d : list jsval) (m : t) (c : UserCollection.t),
    sim ids_m ids_d m c ->
    forallb typed_command (map fst cmds) = true ->
    NoDup (map doc_email (UserCollection.documents c) ++ created_emails cmds) ->
    (UserCollection.inserted c + N.of_nat (List.length cmds) <= 16 ^ 24)%N ->
    Forall2 alike (@run _ port cmds ids_m m) (@run _ (mongo_in b) cmds ids_d c).
Proof.
  induction cmds as [| [cmd now] rest IH];
    intros ids_m ids_d m c Hsim Ht Hnd Hlen; [constructor |].
  cbn [map fst forallb] in Ht. apply andb_true_iff in Ht.
  destruct Ht as [Htc Ht].
  cbn [List.length] in Hlen.
  destruct Hsim as (Hm & Hc & Hrel & Him & Hid).
  destruct cmd as [data | | k]; cbn [run created_emails] in *.
  - destruct (valid_request data) eqn:Hv.
    + assert (Hnew : ~ In (CreateUserUseCase.email data)
                         (map doc_email (UserCollection.documents c))).
      { intros Hin. apply NoDup_remove_2 in Hnd. apply Hnd.
        apply in_or_app. now left. }
      rewrite (InMemoryFacts.execute_create data now m Hv).
      rewrite (mongo_create b data now c Htc Hv Hnew).
      constructor; [constructor; repeat split |].
      apply IH; auto.
      * refine (conj _ (conj _ (conj _ (conj _ _)))).
        -- apply (InMemoryFacts.invariant_create m
                    (CreateUserUseCase.newUserEntity data now) now Hm).
        -- apply StoreFacts.invariant_insert; [exact Hc | lia].
        -- cbn [users UserCollection.documents].
           apply Forall2_app; [exact Hrel |].
           constructor; [| constructor]. repeat split.
        -- cbn [users]. rewrite map_app, Him. reflexivity.
        -- cbn [UserCollection.documents]. rewrite map_app, Hid. reflexivity.
      * cbn [UserCollection.documents]. rewrite map_app, <- app_assoc.
        exact Hnd.
      * cbn [UserCollection.inserted]. lia.
    + unfold valid_request in Hv. apply andb_false_iff in Hv.
      rewrite (@execute_create_invalid _ port data now m Hv).
      rewrite (@execute_create_invalid _ (mongo_in b) data now c Hv).
      constructor; [constructor |].
      apply IH; auto; [keep_sim | lia].
  - rewrite InMemoryFacts.execute_getAll, mongo_getAll.
    constructor.
    + apply (alike_listed _ _
               (map UserCollection.doc_dto (UserCollection.documents c))).
      * apply Permutation_map, Horder.
      * now apply listed_agree.
    + apply IH; auto; [keep_sim | lia].
  - rewrite Him, Hid, !nth_error_map.
    destruct (Forall2_nth_error rec_agree _ _ k Hrel)
      as [(u & x & Hu & Hx & Hux) | [Hu Hx]]; rewrite Hu, Hx; cbn [option_map].
    + rewrite (memory_get_created u now m Hm (nth_error_In _ _ Hu)).
      rewrite (mongo_get_created b x now c Hc (nth_error_In _ _ Hx)).
      constructor; [constructor; now apply same_user_agree |].
      apply IH; auto; [keep_sim | lia].
    + assert (Em : @GetUserByIdUseCase.execute _ port JUndefined now m
                     = (Throws (Error "User not found"), m)).
      { apply (@execute_get_absent _ port).
        apply InMemoryFacts.findById_NaN. reflexivity. }
      assert (Ec : @GetUserByIdUseCase.execute _ (mongo_in b) JUndefined now c
                     = (Throws (Error "User not found"), c)).
      { apply (@execute_get_absent _ (mongo_in b)). reflexivity. }
      rewrite Em, Ec.
      constructor; [constructor |].
      apply IH; auto; [keep_sim | lia].
Qed.

End SubstitutionFacts.

(** C5, as the code has it: run from a new in-memory repository and from
    an empty collection of a store that keeps the schema of user.model.ts
    (in whatever order it lists its documents and whatever errors it
    throws), every sequence of fewer than 2^53 CreateUser, GetAllUsers and
    GetUserById invocations in which name, email and role are strings or
    absent, no email is created twice, and GetUserById is given an id that
    an earlier creation returned on the same adapter, is observed alike
    through both adapters: the same successes and failures, the same error
    messages, DTOs that agree on name, email and role, and listings that
    hold the same users up to their order. *)
Theorem adapters_agree_on_runs (b : UserCollection.behaviour)
  (cmds : list (command * Z)) :
  (forall l, Permutation (UserCollection.listing b l) l) ->
  forallb typed_command (map fst cmds) = true ->
  NoDup (created_emails cmds) ->
  Z.of_nat (List.length cmds) < 2 ^ 53 ->
  Forall2 alike
    (@run _ InMemoryUserRepository.port cmds [] InMemoryUserRepository.new)
    (@run _ (Substitution.mongo_in b) cmds [] UserCollection.empty).
Proof.
  intros Horder Ht Hnd Hlen.
  apply SubstitutionFacts.run_alike; auto.
  - apply SubstitutionFacts.sim_initial.
  - cbn [UserCollection.inserted UserCollection.empty].
    change (16 ^ 24)%N with 79228162514264337593543950336%N.
    change (2 ^ 53) with 9007199254740992 in Hlen. lia.
Qed.

Lemma adapters_agree_on_runs_witness :
  Forall2 alike
    (@run _ InMemoryUserRepository.port sample_run []
       InMemoryUserRepository.new)
    (@run _ (Substitution.mongo_in UserCollection.newest_first) sample_run []
       UserCollection.empty).
Proof.
  apply (adapters_agree_on_runs UserCollection.newest_first sample_run).
  - intros l. symmetry. apply Permutation_rev.
  - reflexivity.
  - simpl. repeat constructor; simpl; intuition discriminate.
  - reflexivity.
Defined.

(** C5 as stated fails: creating the same email twice succeeds twice in
    memory, while the store's unique index makes the second creation
    fail.  The identifier domains differ as well: ["1"] names the first
    user in memory and nothing in the store. *)
Lemma adapters_differ_on_repeated_email :
  @run _ InMemoryUserRepository.port repeated_email_run []
     InMemoryUserRepository.new
    = [Created (UserDTO.mk (JNum 1) (JStr "John") (JStr "john@x.com")
                           (JStr "user"));
       Created (UserDTO.mk (JNum 2) (JStr "John") (JStr "john@x.com")
                           (JStr "user"))] /\
  (exists first failure,
      @run _ Substitution.mongo repeated_email_run [] UserCollection.empty
        = [Created first; Failed failure]) /\
  ~ Forall2 alike
      (@run _ InMemoryUserRepository.port repeated_email_run []
         InMemoryUserRepository.new)
      (@run _ Substitution.mongo repeated_email_run [] UserCollection.empty) /\
  fst (@GetUserByIdUseCase.execute _ InMemoryUserRepository.port (JStr "1") 3
         (snd (@CreateUserUseCase.execute _ InMemoryUserRepository.port
                 john 1 InMemoryUserRepository.new)))
    = Returns (UserDTO.mk (JNum 1) (JStr "John") (JStr "john@x.com")
                          (JStr "user")) /\
  fst (@GetUserByIdUseCase.execute _ Substitution.mongo (JStr "1") 3
         (snd (@CreateUserUseCase.execute _ Substitution.mongo
                 john 1 UserCollection.empty)))
    = Throws (Error "User not found").
Proof.
  split; [reflexivity |]. split; [do 2 eexists; reflexivity |].
  split; [| split; reflexivity].
  intros H. vm_compute in H.
  inversion H as [| ? ? ? ? _ Hrest]; subst.
  inversion Hrest as [| ? ? ? ? Hbad _]; subst.
  inversion Hbad.
Qed.

(* ================================================================== *)
(** * Further properties of the code *)
(* ================================================================== *)

(** ** Entity and mapper *)

(** X1: an entity rebuilt by either mapper from the fields of a DTO maps
    back to that DTO, whatever the time; and [toDTO] does not depend on
    [createdAt]. *)
Theorem mapper_round_trip (d : UserDTO.t) (now : Z) :
  UserMapper.toDTO (UserMapper.toEntity (dto_as_raw d) now) = d /\
  UserMapper.toDTO (UserMapper.toEntity_ts (dto_as_raw d) now) = d /\
  forall (e : UserEntity.t) (c : jsval),
    UserMapper.toDTO
      (UserEntity.mk (UserEntity.id e) (UserEntity.name e)
         (UserEntity.email e) (UserEntity.role e) c)
    = UserMapper.toDTO e.
Proof. destruct d. repeat split. Qed.

(** X2: the constructor always leaves a truthy [createdAt], so building an
    entity again from the fields of a constructed one, at any later time,
    gives the same entity: its creation time is not reset. *)
Theorem constructed_entity_is_stable
  (id name email role createdAt : jsval) (now now' : Z) :
  let e := UserEntity.new id name email role createdAt now in
  truthy (UserEntity.createdAt e) = true /\
  UserEntity.new (UserEntity.id e) (UserEntity.name e) (UserEntity.email e)
                 (UserEntity.role e) (UserEntity.createdAt e) now' = e.
Proof.
  unfold UserEntity.new, js_or. simpl.
  destruct (truthy createdAt) eqn:E; simpl; rewrite ?E; auto.
Qed.

(** X3: the entity [CreateUser.execute] builds is an admin exactly when
    the request's role is the string ['admin']: the default role never
    grants it; and the entity the in-memory adapter returns from [create]
    is an admin exactly when the one it was given is. *)
Theorem admin_only_by_request
  (data : CreateUserUseCase.CreateUserRequest) (now : Z) :
  (UserEntity.isAdmin (CreateUserUseCase.newUserEntity data now) = true
   <-> CreateUserUseCase.role data = JStr "admin") /\
  forall (e : UserEntity.t) (this : InMemoryUserRepository.t),
    match fst (InMemoryUserRepository.repo_create e now this) with
    | Returns created => UserEntity.isAdmin created = UserEntity.isAdmin e
    | Throws _ => False
    end.
Proof.
  split; [| reflexivity].
  unfold UserEntity.isAdmin, CreateUserUseCase.newUserEntity, js_or. simpl.
  destruct (CreateUserUseCase.role data) as [| | b | n | s | t]; simpl;
    try (split; intros H; discriminate H).
  - destruct b; simpl; split; intros H; discriminate H.
  - destruct (n =? 0); simpl; split; intros H; discriminate H.
  - destruct (String.eqb_spec s "") as [-> | Hs]; simpl.
    + split; intros H; discriminate H.
    + split; intros H.
      * apply String.eqb_eq in H. now subst.
      * injection H as ->. reflexivity.
Qed.

(** ** Controllers over any adapter *)

(** X4: whatever the adapter does, [handle] answers 201 with a DTO or 400
    with no data, [getAll] 200 with a list or 500 with no data, and
    [getById] 200 with a DTO or 404 or 500 with no data; [success] is true
    exactly in the 201 and 200 answers. *)
Theorem controller_answers {S : Type} {repo : IUserRepository S}
  (body : CreateUserUseCase.CreateUserRequest) (params_id : string)
  (now : Z) (s : S) :
  let r1 := fst (CreateUserController.handle body now s) in
  let r2 := fst (GetUsersController.getAll now s) in
  let r3 := fst (GetUsersController.getById params_id now s) in
  ((statusCode r1 = 201 /\ success r1 = true /\ exists d, data r1 = PUser d)
   \/ (statusCode r1 = 400 /\ success r1 = false /\ data r1 = PNull)) /\
  ((statusCode r2 = 200 /\ success r2 = true /\ exists l, data r2 = PUsers l)
   \/ (statusCode r2 = 500 /\ success r2 = false /\ data r2 = PNull)) /\
  ((statusCode r3 = 200 /\ success r3 = true /\ exists d, data r3 = PUser d)
   \/ ((statusCode r3 = 404 \/ statusCode r3 = 500)
       /\ success r3 = false /\ data r3 = PNull)).
Proof.
  unfold CreateUserController.handle, GetUsersController.getAll,
    GetUsersController.getById.
  split; [| split].
  - destruct (CreateUserUseCase.execute body now s) as [[d | e] s']; simpl;
      eauto 6.
  - destruct (GetAllUsersUseCase.execute now s) as [[l | e] s']; simpl;
      eauto 6.
  - destruct (GetUserByIdUseCase.execute (JStr params_id) now s)
      as [[d | e] s']; simpl; eauto 6.
    destruct (String.eqb (message e) "User not found"); simpl; auto 6.
Qed.

(** X5: wired to the port's base class, none of whose methods is
    overridden, every valid creation is answered 400 and every read 500,
    each with the message ['Method not implemented']. *)
Theorem base_class_port_answers
  (body : CreateUserUseCase.CreateUserRequest) (params_id : string)
  (now : Z) :
  valid_request body = true ->
  @CreateUserController.handle _ UserRepositoryInterface.port body now tt
    = (mkResponse 400 false "Method not implemented" PNull, tt) /\
  @GetUsersController.getAll _ UserRepositoryInterface.port now tt
    = (mkResponse 500 false "Method not implemented" PNull, tt) /\
  @GetUsersController.getById _ UserRepositoryInterface.port params_id now tt
    = (mkResponse 500 false "Method not implemented" PNull, tt).
Proof.
  intros Hv. apply andb_true_iff in Hv. destruct Hv as [Hn He].
  split; [| split]; try reflexivity.
  unfold CreateUserController.handle.
  rewrite (@execute_create_valid _ UserRepositoryInterface.port body now tt
             Hn He).
  reflexivity.
Qed.

Lemma base_class_port_answers_witness :
  @CreateUserController.handle _ UserRepositoryInterface.port john 3 tt
    = (mkResponse 400 false "Method not implemented" PNull, tt) /\
  @GetUsersController.getAll _ UserRepositoryInterface.port 3 tt
    = (mkResponse 500 false "Method not implemented" PNull, tt) /\
  @GetUsersController.getById _ UserRepositoryInterface.port "7" 3 tt
    = (mkResponse 500 false "Method not implemented" PNull, tt).
Proof. apply (base_class_port_answers john "7" 3). reflexivity. Defined.

(** ** More on the in-memory adapter *)

Module InMemoryMore.

Import InMemoryUserRepository.

Lemma find_app_found {A} (f : A -> bool) (l l' : list A) (x : A) :
  find f l = Some x -> find f (l ++ l')%list = Some x.
Proof.
  induction l as [| a l IH]; simpl; [discriminate |].
  destruct (f a); auto.
Qed.

Lemma find_absent_id (l : list StoredUser) (n : Z) :
  ~ In n (map id l) -> find (fun u => id u =? n) l = None.
Proof.
  induction l as [| u l IH]; simpl; intros H; [reflexivity |].
  destruct (Z.eqb_spec (id u) n) as [E | _]; [elim H; now left |].
  apply IH. intros Hin. apply H. now right.
Qed.

Lemma findById_cases (id_arg : jsval) (now : Z) (this : t) :
  repo_findById id_arg now this =
    (Returns
       (option_map (fun u => rehydrate u now)
          (find (fun u => num_strict_eq (id u) (parseInt (ToString id_arg)))
                (users this))),
     this).
Proof.
  unfold repo_findById. destruct (find _ (users this)); reflexivity.
Qed.

(** The state [create] leaves and the entity it returns, for an entity
    whose [createdAt] is set. *)
Lemma create_result (e : UserEntity.t) (now : Z) (this : t) :
  truthy (UserEntity.createdAt e) = true ->
  repo_create e now this =
    (Returns (UserEntity.mk (JNum (currentId this)) (UserEntity.name e)
                (UserEntity.email e) (UserEntity.role e)
                (UserEntity.createdAt e)),
     {| users := users this ++
          [mkStored (currentId this) (UserEntity.name e) (UserEntity.email e)
                    (UserEntity.role e) (UserEntity.createdAt e)];
        currentId := currentId this + 1 |}).
Proof.
  intros Hc. unfold repo_create, rehydrate, UserEntity.new, js_or. simpl.
  rewrite Hc. reflexivity.
Qed.

Lemma find_created (this : t) (u : StoredUser) :
  Forall (fun v => 0 < id v < currentId this) (users this) ->
  id u = currentId this ->
  find (fun v => id v =? currentId this) (users this ++ [u]) = Some u.
Proof.
  intros Hall Hu. rewrite InMemoryFacts.find_snoc.
  - rewrite Hu, Z.eqb_refl. reflexivity.
  - apply InMemoryFacts.find_id_fresh.
    eapply Forall_impl; [| exact Hall]. simpl. intros v Hv. lia.
Qed.

End InMemoryMore.

(** X6: in a state that satisfies the invariant and whose counter is
    below 2^53 (where numbers and their decimal text are exact), [create]
    of an entity
    whose [createdAt] is set (as the constructor leaves it) returns the
    entity with the next id, and [findById] on that id, given as the number
    or as its decimal text and at any later time, returns exactly the
    entity [create] returned. *)
Theorem memory_create_then_findById (this : InMemoryUserRepository.t)
  (e : UserEntity.t) (now now' : Z) :
  InMemoryUserRepository.invariant this ->
  InMemoryUserRepository.currentId this < 2 ^ 53 ->
  truthy (UserEntity.createdAt e) = true ->
  let created :=
    UserEntity.mk (JNum (InMemoryUserRepository.currentId this))
      (UserEntity.name e) (UserEntity.email e) (UserEntity.role e)
      (UserEntity.createdAt e) in
  let this' := snd (InMemoryUserRepository.repo_create e now this) in
  fst (InMemoryUserRepository.repo_create e now this) = Returns created /\
  InMemoryUserRepository.repo_findById (UserEntity.id created) now' this'
    = (Returns (Some created), this') /\
  InMemoryUserRepository.repo_findById
    (JStr (ToString (UserEntity.id created))) now' this'
    = (Returns (Some created), this').
Proof.
  intros (_ & Hall & _) _ Hc created this'. subst created this'.
  rewrite (InMemoryMore.create_result e now this Hc). cbn [fst snd].
  split; [reflexivity |].
  assert (H : forall id_arg,
    parseInt (ToString id_arg) = Some (InMemoryUserRepository.currentId this) ->
    forall s', s' = {|
      InMemoryUserRepository.users :=
        (InMemoryUserRepository.users this ++
          [InMemoryUserRepository.mkStored
             (InMemoryUserRepository.currentId this) (UserEntity.name e)
             (UserEntity.email e) (UserEntity.role e)
             (UserEntity.createdAt e)])%list;
      InMemoryUserRepository.currentId :=
        InMemoryUserRepository.currentId this + 1 |} ->
    InMemoryUserRepository.repo_findById id_arg now' s'
      = (Returns
           (Some (UserEntity.mk (JNum (InMemoryUserRepository.currentId this))
                    (UserEntity.name e) (UserEntity.email e)
                    (UserEntity.role e) (UserEntity.createdAt e))), s')).
  { intros id_arg Hp s' ->.
    rewrite (InMemoryFacts.findById_parsed _ _ _ _ Hp).
    cbn [InMemoryUserRepository.users].
    erewrite InMemoryMore.find_created; [| exact Hall | reflexivity].
    unfold InMemoryUserRepository.rehydrate, UserEntity.new, js_or. simpl.
    rewrite Hc. reflexivity. }
  split; apply H; try reflexivity; apply parseInt_decimal.
Qed.

Lemma memory_create_then_findById_witness :
  let e := UserEntity.new JNull (JStr "Ann") (JStr "ann@x.com") (JStr "user")
                          JUndefined 10 in
  let created := UserEntity.mk (JNum 2) (JStr "Ann") (JStr "ann@x.com")
                               (JStr "user") (JDate 10) in
  let this' := snd (InMemoryUserRepository.repo_create e 11 one_user) in
  fst (InMemoryUserRepository.repo_create e 11 one_user) = Returns created /\
  InMemoryUserRepository.repo_findById (JNum 2) 99 this'
    = (Returns (Some created), this') /\
  InMemoryUserRepository.repo_findById (JStr "2") 99 this'
    = (Returns (Some created), this').
Proof.
  apply (memory_create_then_findById one_user
           (UserEntity.new JNull (JStr "Ann") (JStr "ann@x.com") (JStr "user")
                           JUndefined 10) 11 99).
  - split; [| split]; simpl.
    + constructor; [intros [] | constructor].
    + constructor; [simpl; lia | constructor].
    + lia.
  - reflexivity.
  - reflexivity.
Defined.

(** X7: [create] disturbs what was stored before: an id that [findById]
    found before is found after, with the same entity; and in every
    state, the empty repository included, [findAll] afterwards returns what
    it returned before followed by the new record alone, read back with
    the old counter value as id. *)
Theorem memory_create_keeps_lookups (this : InMemoryUserRepository.t)
  (e : UserEntity.t) (now now' : Z) :
  let this' := snd (InMemoryUserRepository.repo_create e now this) in
  (forall (id_arg : jsval) (found : UserEntity.t),
      InMemoryUserRepository.repo_findById id_arg now' this
        = (Returns (Some found), this) ->
      InMemoryUserRepository.repo_findById id_arg now' this'
        = (Returns (Some found), this')) /\
  exists before,
    InMemoryUserRepository.repo_findAll now' this = (Returns before, this) /\
    InMemoryUserRepository.repo_findAll now' this'
      = (Returns
           (before ++
            [UserEntity.new (JNum (InMemoryUserRepository.currentId this))
               (UserEntity.name e) (UserEntity.email e) (UserEntity.role e)
               (UserEntity.createdAt e) now'])%list,
         this').
Proof.
  intros this'. subst this'. split.
  - intros id_arg found H.
    rewrite InMemoryMore.findById_cases in *. cbn [snd
      InMemoryUserRepository.repo_create InMemoryUserRepository.users].
    destruct (find _ (InMemoryUserRepository.users this)) as [u |] eqn:F;
      [| discriminate H].
    rewrite (InMemoryMore.find_app_found _ _ _ _ F). simpl in *.
    congruence.
  - unfold InMemoryUserRepository.repo_findAll. cbn [snd
      InMemoryUserRepository.repo_create InMemoryUserRepository.users].
    eexists. split; [reflexivity |]. rewrite map_app. reflexivity.
Qed.

Lemma memory_create_keeps_lookups_witness :
  let e := UserEntity.new JNull (JStr "Ann") (JStr "ann@x.com") (JStr "user")
                          JUndefined 10 in
  let found := UserEntity.mk (JNum 1) (JStr "John") (JStr "john@x.com")
                             (JStr "user") (JDate 5) in
  InMemoryUserRepository.repo_findById (JStr "1") 99
    (snd (InMemoryUserRepository.repo_create e 11 one_user))
    = (Returns (Some found),
       snd (InMemoryUserRepository.repo_create e 11 one_user)) /\
  exists before,
    InMemoryUserRepository.repo_findAll 99 InMemoryUserRepository.new
      = (Returns before, InMemoryUserRepository.new) /\
    InMemoryUserRepository.repo_findAll 99
      (snd (InMemoryUserRepository.repo_create e 11
              InMemoryUserRepository.new))
      = (Returns
           (before ++
            [UserEntity.new (JNum 1) (JStr "Ann") (JStr "ann@x.com")
               (JStr "user") (JDate 10) 99])%list,
         snd (InMemoryUserRepository.repo_create e 11
                InMemoryUserRepository.new)).
Proof.
  intros e found. split.
  - apply (proj1 (memory_create_keeps_lookups one_user e 11 99)).
    reflexivity.
  - exact (proj2 (memory_create_keeps_lookups InMemoryUserRepository.new
                    e 11 99)).
Defined.

Module InMemoryRuns.

Import InMemoryUserRepository.

Lemma created_ids_from (inputs : list (CreateUserUseCase.CreateUserRequest * Z)) :
  forall (this : t),
    let '(os, this') := @create_users _ port inputs this in
    (forall (k : nat) (dto : UserDTO.t),
        nth_error (returned os) k = Some dto ->
        UserDTO.id dto = JNum (currentId this + Z.of_nat k)) /\
    currentId this' = currentId this + Z.of_nat (List.length (returned os)) /\
    List.length (users this')
      = (List.length (users this) + List.length (returned os))%nat.
Proof.
  induction inputs as [| [data now] rest IH]; intros this.
  - simpl. repeat split; try lia. intros [| k] dto H; discriminate H.
  - cbn [create_users].
    destruct (valid_request data) eqn:Hv.
    + rewrite (InMemoryFacts.execute_create data now this Hv).
      match goal with
      | |- context [create_users rest ?s] =>
          specialize (IH s); destruct (create_users rest s) as [os this']
      end.
      cbn [currentId users] in IH. destruct IH as (Hk & Hc & Hl).
      cbn [returned List.length]. split; [| split].
      * intros [| k] dto H; simpl in H.
        -- injection H as <-. simpl. f_equal. lia.
        -- rewrite (Hk k dto H). f_equal. lia.
      * lia.
      * rewrite Hl, length_app. simpl. lia.
    + unfold valid_request in Hv. apply andb_false_iff in Hv.
      rewrite (@execute_create_invalid _ port data now this Hv).
      specialize (IH this). destruct (create_users rest this) as [os this'].
      exact IH.
Qed.

End InMemoryRuns.

(** X8: ids are handed out in sequence from 1, and a request that fails
    validation uses none up: in any run of creations from a new
    repository, the [k]-th successful one (counting from 0) returns id
    [k + 1], and afterwards the counter is one more than the number of
    stored users, which is the number of successes. *)
Theorem created_ids_are_consecutive
  (inputs : list (CreateUserUseCase.CreateUserRequest * Z)) :
  let '(os, this) :=
    @create_users _ InMemoryUserRepository.port inputs
       InMemoryUserRepository.new in
  (forall (k : nat) (dto : UserDTO.t),
      nth_error (returned os) k = Some dto ->
      UserDTO.id dto = JNum (Z.of_nat k + 1)) /\
  InMemoryUserRepository.currentId this
    = Z.of_nat (List.length (returned os)) + 1 /\
  List.length (InMemoryUserRepository.users this)
    = List.length (returned os).
Proof.
  pose proof (InMemoryRuns.created_ids_from inputs InMemoryUserRepository.new)
    as H.
  destruct (create_users inputs InMemoryUserRepository.new) as [os this].
  destruct H as (Hk & Hc & Hl).
  change (InMemoryUserRepository.currentId InMemoryUserRepository.new)
    with 1 in Hk, Hc.
  change (List.length
            (InMemoryUserRepository.users InMemoryUserRepository.new))
    with 0%nat in Hl.
  split; [| split].
  - intros k dto H. rewrite (Hk k dto H). f_equal. lia.
  - lia.
  - exact Hl.
Qed.

(** X9: an id that was never handed out is not found: in a state that
    satisfies the invariant, when the route parameter parses to no number,
    or to one that is not positive or not below the counter, [getById]
    answers 404 with ['User not found'] and leaves the state as it was. *)
Theorem memory_unassigned_id_is_404 (this : InMemoryUserRepository.t)
  (params_id : string) (now : Z) :
  InMemoryUserRepository.invariant this ->
  (forall n, parseInt params_id = Some n ->
             n <= 0 \/ InMemoryUserRepository.currentId this <= n) ->
  @GetUsersController.getById _ InMemoryUserRepository.port params_id now this
    = (mkResponse 404 false "User not found" PNull, this).
Proof.
  intros (_ & Hall & _) Hn.
  assert (Habsent :
    @findById _ InMemoryUserRepository.port (JStr params_id) now this
      = (Returns None, this)).
  { simpl. destruct (parseInt params_id) as [n |] eqn:Hp.
    - rewrite (InMemoryFacts.findById_parsed (JStr params_id) now this n Hp).
      rewrite InMemoryMore.find_absent_id; [reflexivity |].
      intros Hin. apply in_map_iff in Hin. destruct Hin as (u & Hu & Hin).
      rewrite Forall_forall in Hall. specialize (Hall u Hin). simpl in Hall.
      destruct (Hn n eq_refl); lia.
    - now apply InMemoryFacts.findById_NaN. }
  pose proof (@execute_get_absent _ InMemoryUserRepository.port _ _ _ _
                Habsent) as Hx.
  rewrite (@getById_on_throw _ InMemoryUserRepository.port _ _ _ _ _ Hx).
  reflexivity.
Qed.

Lemma memory_unassigned_id_is_404_witness :
  @GetUsersController.getById _ InMemoryUserRepository.port "2" 9 one_user
    = (mkResponse 404 false "User not found" PNull, one_user) /\
  @GetUsersController.getById _ InMemoryUserRepository.port "-1" 9 one_user
    = (mkResponse 404 false "User not found" PNull, one_user).
Proof.
  assert (Hinv : InMemoryUserRepository.invariant one_user).
  { split; [| split]; simpl.
    - constructor; [intros [] | constructor].
    - constructor; [simpl; lia | constructor].
    - lia. }
  split.
  - apply (memory_unassigned_id_is_404 one_user "2" 9 Hinv).
    intros n H. vm_compute in H. injection H as <-. right. simpl. lia.
  - apply (memory_unassigned_id_is_404 one_user "-1" 9 Hinv).
    intros n H. vm_compute in H. injection H as <-. left. lia.
Defined.

(** X10: [findById] never returns a user under another id: when it
    returns an entity, the state is unchanged, the entity is a stored
    record read back, and its id is the number the argument parses to. *)
Theorem memory_findById_sound (this this' : InMemoryUserRepository.t)
  (id_arg : jsval) (now : Z) (e : UserEntity.t) :
  InMemoryUserRepository.repo_findById id_arg now this
    = (Returns (Some e), this') ->
  this' = this /\
  exists u,
    In u (InMemoryUserRepository.users this) /\
    e = InMemoryUserRepository.rehydrate u now /\
    parseInt (ToString id_arg) = Some (InMemoryUserRepository.id u) /\
    UserEntity.id e = JNum (InMemoryUserRepository.id u).
Proof.
  rewrite InMemoryMore.findById_cases. intros H.
  injection H as He Ht. split; [now symmetry |].
  destruct (find _ (InMemoryUserRepository.users this)) as [u |] eqn:F;
    [| discriminate He].
  apply find_some in F. destruct F as [Hin Hp].
  simpl in He. injection He as <-.
  exists u. repeat split; auto.
  destruct (parseInt (ToString id_arg)) as [m |]; [| discriminate Hp].
  simpl in Hp. apply Z.eqb_eq in Hp. now subst.
Qed.

Lemma memory_findById_sound_witness :
  exists u,
    In u (InMemoryUserRepository.users one_user) /\
    UserEntity.mk (JNum 1) (JStr "John") (JStr "john@x.com") (JStr "user")
                  (JDate 5)
      = InMemoryUserRepository.rehydrate u 9 /\
    parseInt "0x1" = Some (InMemoryUserRepository.id u) /\
    JNum 1 = JNum (InMemoryUserRepository.id u).
Proof.
  apply (memory_findById_sound one_user one_user (JStr "0x1") 9
           (UserEntity.mk (JNum 1) (JStr "John") (JStr "john@x.com")
                          (JStr "user") (JDate 5))).
  reflexivity.
Defined.

(** X11: the two read paths never modify the in-memory repository: the
    use cases and the controllers of [getAll] and [getById] return the
    state they were given, for every id and whether they succeed or
    fail. *)
Theorem memory_reads_leave_state (this : InMemoryUserRepository.t)
  (id_arg : jsval) (params_id : string) (now : Z) :
  snd (@GetAllUsersUseCase.execute _ InMemoryUserRepository.port now this)
    = this /\
  snd (@GetUserByIdUseCase.execute _ InMemoryUserRepository.port
         id_arg now this) = this /\
  snd (@GetUsersController.getAll _ InMemoryUserRepository.port now this)
    = this /\
  snd (@GetUsersController.getById _ InMemoryUserRepository.port
         params_id now this) = this.
Proof.
  assert (Hget : forall i,
    snd (@GetUserByIdUseCase.execute _ InMemoryUserRepository.port i now this)
      = this).
  { intros i. unfold GetUserByIdUseCase.execute, bind.
    cbn [findById InMemoryUserRepository.port].
    rewrite InMemoryMore.findById_cases.
    destruct (find _ (InMemoryUserRepository.users this)); reflexivity. }
  split; [| split; [| split]].
  - rewrite InMemoryFacts.execute_getAll. reflexivity.
  - apply Hget.
  - unfold GetUsersController.getAll.
    rewrite InMemoryFacts.execute_getAll. reflexivity.
  - unfold GetUsersController.getById. specialize (Hget (JStr params_id)).
    destruct (GetUserByIdUseCase.execute (JStr params_id) now this)
      as [[d | e] s']; simpl in *; [exact Hget |].
    destruct (String.eqb (message e) "User not found"); exact Hget.
Qed.

(** X12: over the in-memory adapter, in every state whose counter is
    below 2^53 (where adding one is exact), [handle] answers 201 exactly
    when name and email are both truthy, and 400 otherwise: it never
    rejects a valid request, an email that is already stored included; a
    201 stores exactly one more user and advances the counter by one, a
    400 changes nothing. *)
Theorem memory_handle_status (this : InMemoryUserRepository.t)
  (body : CreateUserUseCase.CreateUserRequest) (now : Z) :
  InMemoryUserRepository.currentId this < 2 ^ 53 ->
  let '(r, this') :=
    @CreateUserController.handle _ InMemoryUserRepository.port body now this in
  statusCode r = (if valid_request body then 201 else 400) /\
  success r = valid_request body /\
  List.length (InMemoryUserRepository.users this')
    = (List.length (InMemoryUserRepository.users this)
       + (if valid_request body then 1 else 0))%nat /\
  InMemoryUserRepository.currentId this'
    = InMemoryUserRepository.currentId this
      + (if valid_request body then 1 else 0).
Proof.
  intros _. unfold CreateUserController.handle.
  destruct (valid_request body) eqn:Hv.
  - rewrite (InMemoryFacts.execute_create body now this Hv). simpl.
    rewrite length_app. simpl. repeat split; lia.
  - unfold valid_request in Hv. apply andb_false_iff in Hv.
    rewrite (@execute_create_invalid _ InMemoryUserRepository.port
               body now this Hv).
    simpl. repeat split; lia.
Qed.

Lemma memory_handle_status_witness :
  let '(r, this') :=
    @CreateUserController.handle _ InMemoryUserRepository.port john 20
       one_user in
  statusCode r = 201 /\
  success r = true /\
  List.length (InMemoryUserRepository.users this') = 2%nat /\
  InMemoryUserRepository.currentId this' = 3.
Proof.
  apply (memory_handle_status one_user john 20). reflexivity.
Defined.

(** X13: through the controllers, over the in-memory adapter in a state
    that satisfies the invariant: a valid creation is answered 201 with a
    DTO, and [getById] on the decimal text of that DTO's id is then
    answered 200 with the same DTO. *)
Theorem memory_post_then_get (this : InMemoryUserRepository.t)
  (body : CreateUserUseCase.CreateUserRequest) (now now' : Z) :
  InMemoryUserRepository.invariant this ->
  valid_request body = true ->
  exists dto this',
    @CreateUserController.handle _ InMemoryUserRepository.port body now this
      = (mkResponse 201 true "User created successfully" (PUser dto), this') /\
    @GetUsersController.getById _ InMemoryUserRepository.port
       (ToString (UserDTO.id dto)) now' this'
      = (mkResponse 200 true "User retrieved successfully" (PUser dto),
         this').
Proof.
  intros (_ & Hall & _) Hv.
  unfold CreateUserController.handle, GetUsersController.getById.
  rewrite (InMemoryFacts.execute_create body now this Hv).
  do 2 eexists. split; [reflexivity |].
  cbn [UserDTO.id ToString].
  unfold GetUserByIdUseCase.execute, bind.
  cbn [findById InMemoryUserRepository.port].
  rewrite (InMemoryFacts.findById_parsed _ _ _
             (InMemoryUserRepository.currentId this))
    by (simpl; apply parseInt_decimal).
  cbn [InMemoryUserRepository.users].
  erewrite InMemoryMore.find_created; [| exact Hall | reflexivity].
  reflexivity.
Qed.

Lemma memory_post_then_get_witness :
  exists dto this',
    @CreateUserController.handle _ InMemoryUserRepository.port jane 20 one_user
      = (mkResponse 201 true "User created successfully" (PUser dto), this') /\
    @GetUsersController.getById _ InMemoryUserRepository.port
       (ToString (UserDTO.id dto)) 21 this'
      = (mkResponse 200 true "User retrieved successfully" (PUser dto),
         this').
Proof.
  apply (memory_post_then_get one_user jane 20 21).
  - split; [| split]; simpl.
    + constructor; [intros [] | constructor].
    + constructor; [simpl; lia | constructor].
    + lia.
  - reflexivity.
Defined.

(** ** More on the persistent adapter, over any store *)

Section PersistentAdapter.

Context {D : Type} {store : UserModel D}.

Let persistent : IUserRepository D := MongoUserRepository.port.

(** X14: through the persistent adapter the only failure
    [GetUserById.execute] can end in is the not-found error, and [getById]
    answers 200 or 404 and never 500, whatever the store does: a store
    that fails on [findById] is reported as a missing user. *)
Theorem persistent_getById_never_500 (params_id : string) (now : Z) (d : D) :
  (forall e d',
      @GetUserByIdUseCase.execute D persistent (JStr params_id) now d
        = (Throws e, d') -> e = Error "User not found") /\
  let r := fst (@GetUsersController.getById D persistent params_id now d) in
  (statusCode r = 200 /\ success r = true) \/
  r = mkResponse 404 false "User not found" PNull.
Proof.
  unfold GetUsersController.getById, GetUserByIdUseCase.execute, bind.
  cbn [findById persistent MongoUserRepository.port].
  rewrite mongo_findById_cases.
  destruct (model_findById (JStr params_id) d) as [[[u |] | e0] d0];
    cbn; split; try (intros e d' H; inversion H; reflexivity); auto.
Qed.

(** X15: a failure of the store during [save] or [find] reaches the
    caller unchanged: for a valid request [CreateUser.execute] throws the
    store's error and [handle] answers 400 with its message; for a listing
    [GetAllUsers.execute] throws it and [getAll] answers 500 with its
    message. *)
Theorem persistent_failures_propagate
  (body : CreateUserUseCase.CreateUserRequest) (now : Z) (d d' : D)
  (e : JsError) :
  (valid_request body = true ->
   model_save (fields_of_request body) now d = (Throws e, d') ->
   @CreateUserUseCase.execute D persistent body now d = (Throws e, d') /\
   @CreateUserController.handle D persistent body now d
     = (mkResponse 400 false (message e) PNull, d')) /\
  (model_find d = (Throws e, d') ->
   @GetAllUsersUseCase.execute D persistent now d = (Throws e, d') /\
   @GetUsersController.getAll D persistent now d
     = (mkResponse 500 false (message e) PNull, d')).
Proof.
  split.
  - intros Hv Hs. apply andb_true_iff in Hv. destruct Hv as [Hn He].
    assert (Hx : @CreateUserUseCase.execute D persistent body now d
                   = (Throws e, d')).
    { rewrite (@execute_create_valid D persistent body now d Hn He).
      cbn [create persistent MongoUserRepository.port].
      unfold MongoUserRepository.repo_create, bind.
      unfold fields_of_request in Hs.
      cbn [CreateUserUseCase.newUserEntity UserEntity.new UserEntity.name
           UserEntity.email UserEntity.role].
      rewrite Hs. reflexivity. }
    split; [exact Hx |].
    unfold CreateUserController.handle. rewrite Hx. reflexivity.
  - intros Hf.
    assert (Hx : @GetAllUsersUseCase.execute D persistent now d
                   = (Throws e, d')).
    { unfold GetAllUsersUseCase.execute, bind.
      cbn [findAll persistent MongoUserRepository.port].
      unfold MongoUserRepository.repo_findAll, bind. rewrite Hf.
      reflexivity. }
    split; [exact Hx |].
    unfold GetUsersController.getAll. rewrite Hx. reflexivity.
Qed.

(** X16: every DTO that comes back through the persistent adapter is a
    document the store returned, read with the text of its [_id] as id and
    with the document's own name, email and role: from a creation it is
    the document [save] returned for the request's fields, from a lookup
    the document [findById] returned, and a listing is the documents
    [find] returned, one DTO each and in the same order. *)
Theorem persistent_dto_is_document (now : Z) (d d' : D) :
  (forall body dto,
      @CreateUserUseCase.execute D persistent body now d = (Returns dto, d') ->
      exists doc,
        model_save (fields_of_request body) now d = (Returns doc, d') /\
        dto = UserDTO.mk (JStr (doc_id doc)) (doc_name doc) (doc_email doc)
                         (doc_role doc)) /\
  (forall id dto,
      @GetUserByIdUseCase.execute D persistent id now d = (Returns dto, d') ->
      exists doc,
        model_findById id d = (Returns (Some doc), d') /\
        dto = UserDTO.mk (JStr (doc_id doc)) (doc_name doc) (doc_email doc)
                         (doc_role doc)) /\
  (forall dtos,
      @GetAllUsersUseCase.execute D persistent now d = (Returns dtos, d') ->
      exists docs,
        model_find d = (Returns docs, d') /\
        dtos = map (fun doc =>
                      UserDTO.mk (JStr (doc_id doc)) (doc_name doc)
                                 (doc_email doc) (doc_role doc)) docs).
Proof.
  split; [| split].
  - intros body dto. unfold CreateUserUseCase.execute.
    destruct (negb _ || negb _)%bool; [discriminate |].
    unfold bind. cbn [create persistent MongoUserRepository.port].
    unfold MongoUserRepository.repo_create, bind, ret, fields_of_request.
    cbn [CreateUserUseCase.newUserEntity UserEntity.new UserEntity.name
         UserEntity.email UserEntity.role].
    destruct (model_save _ now d) as [[doc | e] d0]; [| discriminate].
    intros H. injection H as <- <-. exists doc. split; reflexivity.
  - intros id dto. unfold GetUserByIdUseCase.execute, bind.
    cbn [findById persistent MongoUserRepository.port].
    rewrite mongo_findById_cases.
    destruct (model_findById id d) as [[[u |] | e] d0]; try discriminate.
    intros H. injection H as <- <-. exists u. split; reflexivity.
  - intros dtos. unfold GetAllUsersUseCase.execute, bind.
    cbn [findAll persistent MongoUserRepository.port].
    unfold MongoUserRepository.repo_findAll, bind, ret.
    destruct (model_find d) as [[docs | e] d0]; [| discriminate].
    intros H. injection H as <- <-. exists docs. split; [reflexivity |].
    rewrite map_map. reflexivity.
Qed.

End PersistentAdapter.

Lemma persistent_failures_propagate_witness :
  (@CreateUserUseCase.execute _
      (@MongoUserRepository.port _ UnreachableStore.model) john 3 tt
     = (Throws UnreachableStore.connection_error, tt) /\
   @CreateUserController.handle _
      (@MongoUserRepository.port _ UnreachableStore.model) john 3 tt
     = (mkResponse 400 false "connect ECONNREFUSED" PNull, tt)) /\
  (@GetAllUsersUseCase.execute _
      (@MongoUserRepository.port _ UnreachableStore.model) 3 tt
     = (Throws UnreachableStore.connection_error, tt) /\
   @GetUsersController.getAll _
      (@MongoUserRepository.port _ UnreachableStore.model) 3 tt
     = (mkResponse 500 false "connect ECONNREFUSED" PNull, tt)).
Proof.
  destruct (@persistent_failures_propagate _ UnreachableStore.model john 3
              tt tt UnreachableStore.connection_error) as [Hc Hl].
  split.
  - apply Hc; reflexivity.
  - apply Hl; reflexivity.
Defined.

Lemma persistent_dto_is_document_witness :
  let c1 := snd (@CreateUserUseCase.execute _ Substitution.mongo john 1
                   UserCollection.empty) in
  (exists doc,
      @model_save _ UserCollection.model (fields_of_request john) 1
         UserCollection.empty = (Returns doc, c1) /\
      UserDTO.mk (JStr "000000000000000000000000") (JStr "John")
                 (JStr "john@x.com") (JStr "user")
        = UserDTO.mk (JStr (doc_id doc)) (doc_name doc) (doc_email doc)
                     (doc_role doc)) /\
  (exists docs,
      @model_find _ UserCollection.model c1 = (Returns docs, c1) /\
      [UserDTO.mk (JStr "000000000000000000000000") (JStr "John")
                  (JStr "john@x.com") (JStr "user")]
        = map (fun doc =>
                 UserDTO.mk (JStr (doc_id doc)) (doc_name doc)
                            (doc_email doc) (doc_role doc)) docs).
Proof.
  intros c1. split.
  - destruct (@persistent_dto_is_document _ UserCollection.model 1
                UserCollection.empty c1) as (Hc & _ & _).
    apply (Hc john). reflexivity.
  - destruct (@persistent_dto_is_document _ UserCollection.model 2 c1 c1)
      as (_ & _ & Hl).
    apply Hl. reflexivity.
Defined.

(** ** The persistent adapter over the reference store *)

(** X17: over the reference store, in a state that satisfies its
    invariant and has room for another ObjectId: creating a user from a
    valid request of strings whose email is not stored yet, then getting
    the user by the returned id, yields the DTO the creation returned,
    with the request's name and email, and its role or ["user"]. *)
Theorem store_create_then_get_by_id (c : UserCollection.t)
  (data : CreateUserUseCase.CreateUserRequest) (now now' : Z) :
  UserCollection.invariant c ->
  (UserCollection.inserted c < 16 ^ 24)%N ->
  typed_command (CreateUser data) = true ->
  valid_request data = true ->
  ~ In (CreateUserUseCase.email data)
       (map doc_email (UserCollection.documents c)) ->
  exists dto c',
    @CreateUserUseCase.execute _ Substitution.mongo data now c
      = (Returns dto, c') /\
    @GetUserByIdUseCase.execute _ Substitution.mongo (UserDTO.id dto) now' c'
      = (Returns dto, c') /\
    UserDTO.id dto
      = JStr (UserCollection.objectId (UserCollection.inserted c)) /\
    UserDTO.name dto = CreateUserUseCase.name data /\
    UserDTO.email dto = CreateUserUseCase.email data /\
    UserDTO.role dto =
      (if truthy (CreateUserUseCase.role data)
       then CreateUserUseCase.role data else JStr "user").
Proof.
  intros Hinv Hroom Ht Hv Hnew.
  change Substitution.mongo
    with (Substitution.mongo_in UserCollection.reference).
  rewrite (SubstitutionFacts.mongo_create UserCollection.reference
             data now c Ht Hv Hnew).
  do 2 eexists. split; [reflexivity |]. split; [| repeat split].
  cbn [UserDTO.id].
  match goal with
  | |- context [mkDocument ?i ?n ?e ?r ?t] =>
      apply (SubstitutionFacts.mongo_get_created UserCollection.reference
               (mkDocument i n e r t))
  end.
  - now apply StoreFacts.invariant_insert.
  - cbn [UserCollection.documents]. apply in_or_app. right. now left.
Qed.

Lemma store_create_then_get_by_id_witness :
  exists dto c',
    @CreateUserUseCase.execute _ Substitution.mongo jane 4
       UserCollection.empty = (Returns dto, c') /\
    @GetUserByIdUseCase.execute _ Substitution.mongo (UserDTO.id dto) 5 c'
      = (Returns dto, c') /\
    UserDTO.id dto = JStr "000000000000000000000000" /\
    UserDTO.name dto = JStr "Jane" /\
    UserDTO.email dto = JStr "jane@x.com" /\
    UserDTO.role dto = JStr "admin".
Proof.
  apply (store_create_then_get_by_id UserCollection.empty jane 4 5).
  - repeat split; simpl; try constructor. lia.
  - reflexivity.
  - reflexivity.
  - reflexivity.
  - simpl. auto.
Defined.

Lemma persistent_getById_never_500_witness :
  @GetUsersController.getById _
     (@MongoUserRepository.port _ UnreachableStore.model) "1" 3 tt
    = (mkResponse 404 false "User not found" PNull, tt).
Proof.
  destruct (@persistent_getById_never_500 _ UnreachableStore.model "1" 3 tt)
    as [_ [[H _] | H]].
  - discriminate H.
  - reflexivity.
Defined.
